(** * London house price service: a shallow embedding of [app.py]

    The development follows the layout of the source file:
    - [PyStr]: the [str] methods the code calls ([strip], [upper],
      slicing, [rstrip]) and the string grammar accepted by [float];
    - [Geocode]: [POSTCODE_COORDS], [DEFAULT_LON_LAT] and
      [coords_from_postcode_area];
    - [ModelCache]: [download_model_if_needed] over an explicit world
      (file system, network log, standard output);
    - [Routes]: the handlers [predict_form] and [predict], with the
      unpickled predictor as a section variable.

    Scope of the model.  A Python [str] is a Rocq [string] and stands for
    ASCII text: the case mapping and the digit and whitespace classes are
    those of the ASCII range.  A Python [float] is kept as the exact
    rational its decimal text denotes (plus the infinities and nan), so
    rounding to binary64 and the sign of zero are not represented. *)

From Stdlib Require Import QArith Ascii String.
From stdpp Require Import gmap strings list fin_maps.

Local Open Scope string_scope.

(** ** Values, exceptions and the error monad *)

Inductive pyfloat :=
| FFinite (q : Q)
| FInf (negative : bool)
| FNan.

#[warning="-register-all"]
Inductive pyval :=
| VNone
| VBool (b : bool)
| VInt (z : Z)
| VFloat (f : pyfloat)
| VStr (s : string)
| VList (l : list pyval)
| VDict (d : gmap string pyval).

Inductive exn :=
| ValueError
| TypeError
| AttributeError
| OverflowError
| KeyError
| ConnectionError
| HTTPError
| PredictorError.

Inductive result (A : Type) :=
| Ok (a : A)
| Raise (e : exn).
Arguments Ok {A} a.
Arguments Raise {A} e.

#[global] Instance result_ret : MRet result := fun A a => Ok a.
#[global] Instance result_bind : MBind result := fun A B k r =>
  match r with
  | Ok a => k a
  | Raise e => Raise e
  end.

(** [bool(v)], as used by [if not outcode] and [if missing]. *)
Definition py_truthy (v : pyval) : bool :=
  match v with
  | VNone => false
  | VBool b => b
  | VInt z => negb (z =? 0)%Z
  | VFloat (FFinite q) => negb (Qeq_bool q 0)
  | VFloat _ => true
  | VStr s => negb (String.eqb s EmptyString)
  | VList l => match l with [] => false | _ => true end
  | VDict d => negb (bool_decide (d = ∅))
  end.

(** ** String methods *)

Module PyStr.

(** Characters removed by [str.strip()] with no argument, ASCII range:
    tab, line feed, vertical tab, form feed, carriage return, the four
    separators 28..31 and the space. *)
Definition isspace (c : ascii) : bool :=
  let n := N_of_ascii c in
  ((9 <=? n) && (n <=? 13) || (28 <=? n) && (n <=? 32))%N.

Definition islower (c : ascii) : bool :=
  let n := N_of_ascii c in ((97 <=? n) && (n <=? 122))%N.

Definition isupper (c : ascii) : bool :=
  let n := N_of_ascii c in ((65 <=? n) && (n <=? 90))%N.

Definition isalpha (c : ascii) : bool := islower c || isupper c.

Definition isdigit (c : ascii) : bool :=
  let n := N_of_ascii c in ((48 <=? n) && (n <=? 57))%N.

Definition upper_char (c : ascii) : ascii :=
  if islower c then ascii_of_N (N_of_ascii c - 32) else c.

Definition lower_char (c : ascii) : ascii :=
  if isupper c then ascii_of_N (N_of_ascii c + 32) else c.

(** [s.upper()] and [s.lower()] *)
Fixpoint upper (s : string) : string :=
  match s with
  | EmptyString => EmptyString
  | String c s' => String (upper_char c) (upper s')
  end.

Fixpoint lower (s : string) : string :=
  match s with
  | EmptyString => EmptyString
  | String c s' => String (lower_char c) (lower s')
  end.

(** [c in chars] for a one-character [c] *)
Fixpoint mem_char (c : ascii) (chars : string) : bool :=
  match chars with
  | EmptyString => false
  | String d chars' => Ascii.eqb c d || mem_char c chars'
  end.

(** Removal of the longest prefix, resp. suffix, of characters
    satisfying [p]. *)
Fixpoint lstrip_by (p : ascii -> bool) (s : string) : string :=
  match s with
  | EmptyString => EmptyString
  | String c s' => if p c then lstrip_by p s' else s
  end.

Fixpoint rstrip_by (p : ascii -> bool) (s : string) : string :=
  match s with
  | EmptyString => EmptyString
  | String c s' =>
      match rstrip_by p s' with
      | EmptyString => if p c then EmptyString else String c EmptyString
      | r => String c r
      end
  end.

(** [s.strip()] *)
Definition strip (s : string) : string := rstrip_by isspace (lstrip_by isspace s).

(** [s.rstrip(chars)] *)
Definition rstrip (chars : string) (s : string) : string :=
  rstrip_by (fun c => mem_char c chars) s.

(** [s[:n]] *)
Fixpoint slice_to (n : nat) (s : string) : string :=
  match n, s with
  | S n', String c s' => String c (slice_to n' s')
  | _, _ => EmptyString
  end.

(** Two strings that differ only in letter case: the same length, and at
    each position the same character or the two cases of one letter. *)
Definition same_letter (a b : ascii) : bool :=
  Ascii.eqb a b
  || (isupper a && Ascii.eqb b (lower_char a))
  || (islower a && Ascii.eqb b (upper_char a)).

Fixpoint differ_only_in_case (s t : string) : bool :=
  match s, t with
  | EmptyString, EmptyString => true
  | String a s', String b t' => same_letter a b && differ_only_in_case s' t'
  | _, _ => false
  end.

(** *** The [float(str)] constructor

    Once trimmed, the text must match
    [[sign] (floatnumber | "inf" | "infinity" | "nan")] where
    [floatnumber ::= ([digitpart] "." digitpart | digitpart ["."]) [exponent]],
    [digitpart ::= digit (["_"] digit)*] and
    [exponent ::= ("e" | "E") [sign] digitpart]; the words are matched
    without regard to case.  Anything else is a [ValueError]. *)

Definition digit_val (c : ascii) : N := (N_of_ascii c - 48)%N.

(** The rest of a [digitpart], one digit having been read: [acc] is the
    number read so far and [cnt] the count of its digits. *)
Fixpoint digit_run (acc : N) (cnt : nat) (s : string) : N * nat * string :=
  match s with
  | String c s' =>
      if isdigit c then digit_run (10 * acc + digit_val c)%N (S cnt) s'
      else if Ascii.eqb c "_" then
        match s' with
        | String d s'' =>
            if isdigit d then digit_run (10 * acc + digit_val d)%N (S cnt) s''
            else (acc, cnt, s)
        | EmptyString => (acc, cnt, s)
        end
      else (acc, cnt, s)
  | EmptyString => (acc, cnt, s)
  end.

Definition digitpart (acc : N) (s : string) : option (N * nat * string) :=
  match s with
  | String c s' =>
      if isdigit c then Some (digit_run (10 * acc + digit_val c)%N 1 s') else None
  | EmptyString => None
  end.

Definition read_sign (s : string) : bool * string :=
  match s with
  | String "-" s' => (true, s')
  | String "+" s' => (false, s')
  | _ => (false, s)
  end.

(** [number]: the digits read as one integer, the count of digits after
    the point, and the rest of the text. *)
Definition number (s : string) : option (N * nat * string) :=
  match digitpart 0 s with
  | Some (ip, _, r) =>
      match r with
      | String "." r' =>
          match digitpart ip r' with
          | Some res => Some res
          | None => Some (ip, 0%nat, r')
          end
      | _ => Some (ip, 0%nat, r)
      end
  | None =>
      match s with
      | String "." r' => digitpart 0 r'
      | _ => None
      end
  end.

(** [floatnumber], the whole text: mantissa and decimal exponent. *)
Definition floatnumber (s : string) : option (N * Z) :=
  match number s with
  | Some (m, k, EmptyString) => Some (m, (- Z.of_nat k)%Z)
  | Some (m, k, String c r) =>
      if Ascii.eqb c "e" || Ascii.eqb c "E" then
        let '(neg, r') := read_sign r in
        match digitpart 0 r' with
        | Some (e, _, EmptyString) =>
            Some (m, ((if neg then - Z.of_N e else Z.of_N e) - Z.of_nat k)%Z)
        | _ => None
        end
      else None
  | None => None
  end.

(** [m * 10 ^ x] as a rational *)
Definition decimal_value (neg : bool) (m : N) (x : Z) : Q :=
  let n := if neg then (- Z.of_N m)%Z else Z.of_N m in
  if (0 <=? x)%Z then Qmake (n * 10 ^ x) 1
  else Qmake n (Z.to_pos (10 ^ (- x))).

(** [float] trims with the C character class: 9..13 and the space. *)
Definition isspace_c (c : ascii) : bool :=
  let n := N_of_ascii c in
  ((9 <=? n) && (n <=? 13) || (n =? 32))%N.

Definition parse_float (s : string) : option pyfloat :=
  let trimmed := rstrip_by isspace_c (lstrip_by isspace_c s) in
  let '(neg, body) := read_sign trimmed in
  let word := lower body in
  if String.eqb word "inf" || String.eqb word "infinity" then Some (FInf neg)
  else if String.eqb word "nan" then Some FNan
  else
    match floatnumber body with
    | Some (m, x) => Some (FFinite (decimal_value neg m x))
    | None => None
    end.

End PyStr.

(** [float(v)] *)
Definition py_float (v : pyval) : result pyfloat :=
  match v with
  | VFloat f => Ok f
  | VInt z =>
      if (Z.abs z <? 2 ^ 1024 - 2 ^ 970)%Z then Ok (FFinite (inject_Z z))
      else Raise OverflowError
  | VBool b => Ok (FFinite (if b then 1 else 0))
  | VStr s =>
      match PyStr.parse_float s with
      | Some f => Ok f
      | None => Raise ValueError
      end
  | VNone | VList _ | VDict _ => Raise TypeError
  end.

(** ** Geocode lookup *)

Module Geocode.

Definition fl (q : Q) : pyfloat := FFinite q.

Definition POSTCODE_COORDS : gmap string (pyfloat * pyfloat) :=
  list_to_map [
    ("SW1", (fl 51.5018, fl (-0.1416))); ("SW3", (fl 51.4920, fl (-0.1669)));
    ("SW6", (fl 51.4759, fl (-0.2060))); ("SW7", (fl 51.4965, fl (-0.1746)));
    ("SW8", (fl 51.4782, fl (-0.1369))); ("SW9", (fl 51.4653, fl (-0.1126)));
    ("SE1", (fl 51.5050, fl (-0.0850))); ("SE11", (fl 51.4880, fl (-0.1065)));
    ("EC1", (fl 51.5246, fl (-0.0985))); ("WC2", (fl 51.5149, fl (-0.1236)))
  ].

Definition DEFAULT_LON_LAT : pyfloat * pyfloat := (fl 51.5074, fl (-0.1278)).

(** The argument of [rstrip] on line 23, as written: the capital letters
    without [I]. *)
Definition RSTRIP_CHARS : string := "ABCDEFGHJKLMNOPQRSTUVWXYZ".

(** Line 23: the local [base], as a function of the normalised [oc]. *)
Definition base_of (oc : string) : string :=
  if (String.length oc <=? 3)%nat then oc
  else PyStr.rstrip RSTRIP_CHARS (PyStr.slice_to 3 oc).

(** A method call [outcode.strip()] on the receiver: only [str] has it. *)
Definition call_strip (v : pyval) : result string :=
  match v with
  | VStr s => Ok (PyStr.strip s)
  | _ => Raise AttributeError
  end.

Definition coords_from_postcode_area (outcode : pyval) : result (pyfloat * pyfloat) :=
  if negb (py_truthy outcode) then Ok DEFAULT_LON_LAT
  else
    stripped ← call_strip outcode;
    let oc := PyStr.upper stripped in
    let base := base_of oc in
    Ok (default DEFAULT_LON_LAT (POSTCODE_COORDS !! base)).

(** The handler passes [data.get('postcodeArea', '')], a [str] or [None]. *)
Definition outcode_arg (o : option string) : pyval :=
  match o with
  | Some s => VStr s
  | None => VNone
  end.

(** The lookup key the function computes for a [str] input. *)
Definition lookup_key (s : string) : string := base_of (PyStr.upper (PyStr.strip s)).

(** The key as the specification words it: all trailing alphabetic
    characters of the three-character slice are removed. *)
Definition spec_base_of (oc : string) : string :=
  if (String.length oc <=? 3)%nat then oc
  else PyStr.rstrip_by PyStr.isalpha (PyStr.slice_to 3 oc).

Definition spec_lookup_key (s : string) : string :=
  spec_base_of (PyStr.upper (PyStr.strip s)).

End Geocode.

(** ** Model download and cache *)

Module ModelCache.

Definition bytes := list Byte.byte.

(** What the remote end does with [requests.get(url, stream=True,
    timeout=60)]: no answer within the timeout, or an answer with a status
    code and the chunks [iter_content] yields; [complete] is false when the
    stream breaks after the last of them. *)
Inductive http_reply :=
| NoReply
| Reply (status : Z) (chunks : list bytes) (complete : bool).

(** The fixed surroundings of the process: [os.environ], the directory of
    [__file__] and the network. *)
Record env := {
  environ : gmap string string;
  app_dir : string;
  remote : string -> http_reply
}.

(** The mutable world: regular files by path, the URLs requested so far and
    the lines printed so far.  The cache directory is taken to be writable. *)
Record world := {
  fs : gmap string bytes;
  fetched : list string;
  stdout : list string
}.

Definition DEFAULT_MODEL_URL : string :=
  "https://github.com/Nas365/LondonHousesPricePrediction-/releases/download/v1.0/best_random_forest.pkl".

(** [os.getenv("MODEL_URL", default)] *)
Definition MODEL_URL (e : env) : string :=
  default DEFAULT_MODEL_URL (environ e !! "MODEL_URL").

(** [os.path.join(a, b)] for a relative [b] *)
Definition path_join (a b : string) : string :=
  match a with
  | EmptyString => b
  | _ => if String.eqb (PyStr.rstrip "/" a) a then a ++ "/" ++ b else a ++ b
  end.

Definition MODEL_PATH (e : env) : string := path_join (app_dir e) "model_cache.pkl".

Definition path_exists (p : string) (w : world) : bool :=
  bool_decide (is_Some (fs w !! p)).

Definition print (line : string) (w : world) : world :=
  {| fs := fs w; fetched := fetched w; stdout := (stdout w ++ [line])%list |}.

Definition request (url : string) (w : world) : world :=
  {| fs := fs w; fetched := (fetched w ++ [url])%list; stdout := stdout w |}.

(** [open(p, "wb")] creates or truncates the file. *)
Definition open_wb (p : string) (w : world) : world :=
  {| fs := <[p := []]> (fs w); fetched := fetched w; stdout := stdout w |}.

(** [f.write(chunk)] on the file opened at [p] *)
Definition write (p : string) (chunk : bytes) (w : world) : world :=
  {| fs := <[p := (default [] (fs w !! p) ++ chunk)%list]> (fs w);
     fetched := fetched w; stdout := stdout w |}.

(** The body of the [for chunk in r.iter_content(...)] loop *)
Definition write_chunk (p : string) (w : world) (chunk : bytes) : world :=
  match chunk with
  | [] => w
  | _ => write p chunk w
  end.

Definition download_model_if_needed (e : env) (w : world) : result pyval * world :=
  if negb (path_exists (MODEL_PATH e) w) then
    let w := print ("Downloading model from " ++ MODEL_URL e ++ " ...") w in
    let w := request (MODEL_URL e) w in
    match remote e (MODEL_URL e) with
    | NoReply => (Raise ConnectionError, w)
    | Reply status chunks complete =>
        if ((400 <=? status) && (status <? 600))%Z then (Raise HTTPError, w)
        else
          let w := open_wb (MODEL_PATH e) w in
          let w := foldl (write_chunk (MODEL_PATH e)) w chunks in
          if complete then (Ok VNone, print "Model download complete." w)
          else (Raise ConnectionError, w)
    end
  else (Ok VNone, print ("Using cached model at " ++ MODEL_PATH e) w).

(** Two processes to run the function in: the directory [/app], default
    URL, a server that answers 200 with two chunks and an empty one; the
    cache file present in [warm_world] and absent in [cold_world]. *)
Definition sample_env : env :=
  {| environ := ∅; app_dir := "/app";
     remote := fun _ => Reply 200 [[Byte.x50; Byte.x4b]; []; [Byte.x03]] true |}.

Definition warm_world : world :=
  {| fs := {[ "/app/model_cache.pkl" := [Byte.x80] ]}; fetched := []; stdout := [] |}.

Definition cold_world : world :=
  {| fs := ∅; fetched := []; stdout := [] |}.

End ModelCache.

(** ** Routes *)

Module Routes.

Definition FEATURES : list string := [
  "latitude"; "longitude"; "floorAreaSqM";
  "bedrooms"; "bathrooms"; "livingRooms";
  "propertyType"; "tenure";
  "currentEnergyRating"; "postcodeArea"
].

(** The list both handlers cast to [float] *)
Definition NUMERIC : list string :=
  ["latitude"; "longitude"; "floorAreaSqM"; "bedrooms"; "bathrooms"; "livingRooms"].

(** The [name] attributes of the inputs of the form in [INDEX_HTML], in
    document order. *)
Definition INDEX_HTML_INPUTS : list string := [
  "floorAreaSQM"; "bedrooms"; "bathrooms"; "livingRooms";
  "propertyType"; "tenure"; "currentEnergyRating"; "postcodeArea"
].

(** [request.form]: the submitted fields in order; a name may repeat. *)
Definition form := list (string * string).

(** [request.form.get(k)]: the first value under [k], or [None] *)
Fixpoint form_get (f : form) (k : string) : pyval :=
  match f with
  | [] => VNone
  | (k', v) :: f' => if String.eqb k' k then VStr v else form_get f' k
  end.

(** [d.get(k, dflt)] *)
Definition dict_get (d : gmap string pyval) (k : string) (dflt : pyval) : pyval :=
  default dflt (d !! k).

(** [v in ('', None)] *)
Definition in_blank_tuple (v : pyval) : bool :=
  match v with
  | VStr s => String.eqb s EmptyString
  | VNone => true
  | _ => false
  end.

(** A [for k in ks] loop whose body updates [data] and may raise *)
Fixpoint for_keys (body : gmap string pyval -> string -> result (gmap string pyval))
    (ks : list string) (data : gmap string pyval) : result (gmap string pyval) :=
  match ks with
  | [] => Ok data
  | k :: ks' => data' ← body data k; for_keys body ks' data'
  end.

(** Line 216: the dict comprehension over [FEATURES] *)
Definition form_data (f : form) : gmap string pyval :=
  foldl (fun d k => <[k := form_get f k]> d) ∅
    (filter (fun k => k ∉ ["latitude"; "longitude"]) FEATURES).

(** Line 224: [float(v) if v not in ('', None) else 0.0] *)
Definition float_or_zero (v : pyval) : result pyfloat :=
  if negb (in_blank_tuple v) then py_float v else Ok (FFinite 0.0).

(** Lines 223-224 *)
Definition cast_or_zero (data : gmap string pyval) (k : string) : result (gmap string pyval) :=
  let v := dict_get data k VNone in
  x ← float_or_zero v; Ok (<[k := VFloat x]> data).

(** Lines 216-224 of [predict_form]: the record handed to [model_predict] *)
Definition predict_form_record (f : form) : result (gmap string pyval) :=
  let data := form_data f in
  '(lat, lon) ← Geocode.coords_from_postcode_area
                  (dict_get data "postcodeArea" (VStr EmptyString));
  let data := <["latitude" := VFloat lat]> data in
  let data := <["longitude" := VFloat lon]> data in
  for_keys cast_or_zero NUMERIC data.

(** The single row of [pd.DataFrame([row], columns=FEATURES)]: the values
    in column order, nan where the dict has no such key. *)
Definition frame_row (row : gmap string pyval) : list pyval :=
  map (fun k => default (VFloat FNan) (row !! k)) FEATURES.

Inductive response :=
| Html (prediction : option pyfloat)
| Json (body : list (string * pyval)) (status : Z).

(** [repr] of a list of strings that need no escaping, as the f-string
    of line 233 prints [missing] *)
Definition repr_str (s : string) : string := "'" ++ s ++ "'".

Fixpoint join (sep : string) (l : list string) : string :=
  match l with
  | [] => EmptyString
  | [x] => x
  | x :: l' => x ++ sep ++ join sep l'
  end.

Definition repr_list (l : list string) : string :=
  "[" ++ join ", " (map repr_str l) ++ "]".

(** [f in payload] for a string [f] *)
Definition py_in (f : string) (payload : pyval) : result bool :=
  match payload with
  | VDict d => Ok (bool_decide (is_Some (d !! f)))
  | VList l =>
      Ok (existsb (fun x => match x with VStr s => String.eqb s f | _ => false end) l)
  | VStr s => Ok (match index 0 f s with Some _ => true | None => false end)
  | _ => Raise TypeError
  end.

(** [payload[k]] for a string [k] *)
Definition py_getitem (payload : pyval) (k : string) : result pyval :=
  match payload with
  | VDict d =>
      match d !! k with
      | Some v => Ok v
      | None => Raise KeyError
      end
  | _ => Raise TypeError
  end.

(** Line 231: [[f for f in FEATURES if f not in payload]] *)
Fixpoint missing_of (payload : pyval) (fs : list string) : result (list string) :=
  match fs with
  | [] => Ok []
  | f :: fs' =>
      b ← py_in f payload;
      rest ← missing_of payload fs';
      Ok (if (b : bool) then rest else f :: rest)
  end.

(** Line 237 *)
Definition cast (row : gmap string pyval) (k : string) : result (gmap string pyval) :=
  match row !! k with
  | Some v => x ← py_float v; Ok (<[k := VFloat x]> row)
  | None => Raise KeyError
  end.

(** Line 235: the dict comprehension over [FEATURES] *)
Definition copy_key (payload : pyval) (row : gmap string pyval) (k : string)
    : result (gmap string pyval) :=
  v ← py_getitem payload k; Ok (<[k := v]> row).

(** The numeric fields the handler reads from the form: [NUMERIC]
    without the two coordinates. *)
Definition FORM_NUMERIC : list string :=
  ["floorAreaSqM"; "bedrooms"; "bathrooms"; "livingRooms"].

(** Requests and a predictor to run the handlers on: a submission of the
    rendered form, the same with coordinates added by hand, a form with
    blank numeric fields, and one with a word for the bedrooms. *)
Definition sample_submission : form := [
  ("floorAreaSQM", "50"); ("bedrooms", "2"); ("bathrooms", "1");
  ("livingRooms", "1"); ("propertyType", "Flat"); ("tenure", "Leasehold");
  ("currentEnergyRating", "C"); ("postcodeArea", "SW1")
].

Definition forged_submission : form :=
  ("latitude", "0") :: ("longitude", "0") :: sample_submission.

Definition blank_form : form := [
  ("floorAreaSqM", EmptyString); ("bedrooms", EmptyString); ("bathrooms", EmptyString);
  ("propertyType", "Flat"); ("postcodeArea", "SW1")
].

Definition word_form : form := [("bedrooms", "abc"); ("postcodeArea", "SW1")].

Definition sample_model : list pyval -> result pyfloat :=
  fun _ => Ok (FFinite 250000).

(** JSON bodies: the ten keys, and the same without [tenure]. *)
Definition full_payload : gmap string pyval :=
  list_to_map [
    ("latitude", VFloat (FFinite 51.5)); ("longitude", VFloat (FFinite (-0.12)));
    ("floorAreaSqM", VInt 50); ("bedrooms", VInt 2); ("bathrooms", VInt 1);
    ("livingRooms", VInt 1); ("propertyType", VStr "Flat");
    ("tenure", VStr "Leasehold"); ("currentEnergyRating", VStr "C");
    ("postcodeArea", VStr "SW1")
  ].

Definition payload_without_tenure : gmap string pyval := delete "tenure" full_payload.

Section Handlers.

(** The unpickled estimator: [float(model.predict(X)[0])] on a one-row
    frame. *)
Variable model : list pyval -> result pyfloat.

Definition model_predict (row : gmap string pyval) : result pyfloat :=
  model (frame_row row).

Definition predict_form (f : form) : result response :=
  data ← predict_form_record f;
  pred ← model_predict data;
  Ok (Html (Some pred)).

Definition predict (payload : pyval) : result response :=
  missing ← missing_of payload FEATURES;
  match missing with
  | _ :: _ => Ok (Json [("error", VStr ("Missing fields: " ++ repr_list missing))] 400)
  | [] =>
      row ← for_keys (copy_key payload) FEATURES ∅;
      row ← for_keys cast NUMERIC row;
      pred ← model_predict row;
      Ok (Json [("prediction", VFloat pred); ("currency", VStr "GBP")] 200)
  end.

End Handlers.

(** The status line Flask sends: an uncaught exception is a 500. *)
Definition status_of (r : result response) : Z :=
  match r with
  | Ok (Html _) => 200
  | Ok (Json _ s) => s
  | Raise _ => 500
  end.

End Routes.

(** ** Start-up and health check *)

Module Startup.
Import ModelCache.

(** Lines 54-56.  [sys.modules] is kept as the names each loaded module
    defines: [__main__] is created when absent and gains the name
    [log_transform]. *)
Definition register_log_transform (mods : gmap string (gset string))
    : gmap string (gset string) :=
  let mods :=
    if bool_decide (is_Some (mods !! "__main__")) then mods
    else <["__main__" := ∅]> mods in
  <["__main__" := {["log_transform"]} ∪ default ∅ (mods !! "__main__")]> mods.

(** How [load_model] ends: with the unpickled object, with the exception
    of the download, with the cache file missing at [open], or with an
    exception of [pickle.load]. *)
Inductive load_result (P : Type) :=
| Loaded (p : P)
| DownloadRaised (e : exn)
| FileNotFound
| UnpickleRaised.
Arguments Loaded {P} p.
Arguments DownloadRaised {P} e.
Arguments FileNotFound {P}.
Arguments UnpickleRaised {P}.

Section Loading.

Variable P : Type.

(** [pickle.load] on the bytes of the file, given the names it can
    resolve; [None] when it raises. *)
Variable pickle_load : gmap string (gset string) -> bytes -> option P.

Definition load_model (e : env) (w : world) (mods : gmap string (gset string))
    : load_result P * world * gmap string (gset string) :=
  match download_model_if_needed e w with
  | (Raise err, w') => (DownloadRaised err, w', mods)
  | (Ok _, w') =>
      let mods' := register_log_transform mods in
      match fs w' !! MODEL_PATH e with
      | None => (FileNotFound, w', mods')
      | Some content =>
          match pickle_load mods' content with
          | Some p => (Loaded p, w', mods')
          | None => (UnpickleRaised, w', mods')
          end
      end
  end.

End Loading.

(** Lines 86-88 *)
Definition health (e : env) (w : world) : Routes.response :=
  Routes.Json
    [("status", VStr "ok");
     ("model_loaded", VBool (path_exists (MODEL_PATH e) w))] 200.

(** The answer of a server to one request: does the function give up
    before it opens the cache file? *)
Definition refused (r : http_reply) : bool :=
  match r with
  | NoReply => true
  | Reply status _ _ => ((400 <=? status) && (status <? 600))%Z
  end.

(** Servers to run the functions against: one that answers 404, one whose
    stream breaks after the first chunk. *)
Definition missing_env : env :=
  {| environ := ∅; app_dir := "/app";
     remote := fun _ => Reply 404 [] true |}.

Definition broken_env : env :=
  {| environ := ∅; app_dir := "/app";
     remote := fun _ => Reply 200 [[Byte.x50; Byte.x4b]] false |}.

(** A stand-in for [pickle.load]: the object is the bytes read, and the
    load needs [log_transform] in [__main__]. *)
Definition sample_pickle_load (mods : gmap string (gset string)) (b : bytes)
    : option bytes :=
  if bool_decide ("log_transform" ∈ default ∅ (mods !! "__main__")) then Some b
  else None.

End Startup.

(** ** Auxiliary notions for the statements below *)

Module Aux.

(** A string of whitespace only *)
Fixpoint all_space (s : string) : bool :=
  match s with
  | EmptyString => true
  | String c s' => PyStr.isspace c && all_space s'
  end.

(** The features that are not cast to [float] *)
Definition CATEGORICAL : list string :=
  ["propertyType"; "tenure"; "currentEnergyRating"; "postcodeArea"].

(** [float(v)] put back in the row, as line 237 does when it succeeds *)
Definition cast_value (v : pyval) : pyval :=
  match py_float v with
  | Ok x => VFloat x
  | Raise _ => v
  end.

(** The row the JSON handler builds from an object with all ten keys:
    column by column, the numeric entries cast and the others as sent. *)
Definition json_row (d : gmap string pyval) : list pyval :=
  map (fun k =>
         match d !! k with
         | Some v => if bool_decide (k ∈ Routes.NUMERIC) then cast_value v else v
         | None => VFloat FNan
         end) Routes.FEATURES.

(** Two JSON objects with the same entries under the ten feature names *)
Definition same_features (d1 d2 : gmap string pyval) : Prop :=
  forall k, k ∈ Routes.FEATURES -> d1 !! k = d2 !! k.

(** JSON bodies for the statements on [predict]: the complete body with
    a key the model does not know, and with [null] for the bedrooms. *)
Definition extended_payload : gmap string pyval :=
  <["comment" := VStr "sea view"]> Routes.full_payload.

Definition null_payload : gmap string pyval :=
  <["bedrooms" := VNone]> Routes.full_payload.

End Aux.

(** * Properties *)

(** ** Strings *)

Module PyStrFacts.
Import PyStr.

(** Case analysis over the 256 characters *)
Ltac each_char c := destruct c as [[] [] [] [] [] [] [] []].

Lemma isspace_upper_char c : isspace (upper_char c) = isspace c.
Proof. each_char c; reflexivity. Qed.

Lemma upper_char_lower_char c : isupper c = true -> upper_char (lower_char c) = upper_char c.
Proof. each_char c; intros H; solve [reflexivity | discriminate H]. Qed.

Lemma upper_char_idem c : upper_char (upper_char c) = upper_char c.
Proof. each_char c; reflexivity. Qed.

Lemma mem_rstrip_chars_isalpha c :
  mem_char c Geocode.RSTRIP_CHARS = true -> isalpha c = true.
Proof. each_char c; intros H; solve [reflexivity | discriminate H]. Qed.

Lemma rstrip_by_length p s : String.length (rstrip_by p s) <= String.length s.
Proof.
  induction s as [|c s IH]; simpl; [lia|].
  destruct (rstrip_by p s); [destruct (p c)|]; simpl in *; lia.
Qed.

Lemma slice_to_length n s : String.length (slice_to n s) <= n.
Proof.
  revert s; induction n as [|n IH]; intros [|c s]; simpl; try lia.
  specialize (IH s); lia.
Qed.

Lemma lstrip_by_upper s : lstrip_by isspace (upper s) = upper (lstrip_by isspace s).
Proof.
  induction s as [|c s IH]; simpl; [reflexivity|].
  rewrite isspace_upper_char. destruct (isspace c); [exact IH | reflexivity].
Qed.

Lemma rstrip_by_upper s : rstrip_by isspace (upper s) = upper (rstrip_by isspace s).
Proof.
  induction s as [|c s IH]; simpl; [reflexivity|].
  rewrite IH, isspace_upper_char.
  destruct (rstrip_by isspace s); simpl; [destruct (isspace c)|]; reflexivity.
Qed.

Lemma strip_upper s : strip (upper s) = upper (strip s).
Proof. unfold strip. rewrite lstrip_by_upper. apply rstrip_by_upper. Qed.

End PyStrFacts.

(** ** Geocode lookup *)

Module GeocodeFacts.
Import PyStr PyStrFacts Geocode.

Lemma base_of_length oc : String.length (base_of oc) <= 3.
Proof.
  unfold base_of. destruct (String.length oc <=? 3)%nat eqn:E.
  - apply Nat.leb_le in E. exact E.
  - etransitivity; [apply rstrip_by_length | apply slice_to_length].
Qed.

Lemma lookup_key_length s : String.length (lookup_key s) <= 3.
Proof. apply base_of_length. Qed.

(** On a [str] the function is a table lookup at [lookup_key]; the empty
    string is its own key and has no entry. *)
Lemma coords_str s :
  coords_from_postcode_area (VStr s)
  = Ok (default DEFAULT_LON_LAT (POSTCODE_COORDS !! lookup_key s)).
Proof.
  unfold coords_from_postcode_area. destruct s as [|c s]; reflexivity.
Qed.

Lemma differ_only_in_case_upper s t :
  differ_only_in_case s t = true -> upper s = upper t.
Proof.
  revert t; induction s as [|a s IH]; intros [|b t]; simpl; try discriminate; [reflexivity|].
  intros [Hc Hs]%andb_prop. f_equal; [|exact (IH _ Hs)].
  unfold same_letter in Hc.
  apply orb_prop in Hc as [Hc|Hc]; [apply orb_prop in Hc as [Hc|Hc]|].
  - apply Ascii.eqb_eq in Hc. congruence.
  - apply andb_prop in Hc as [Hu ->%Ascii.eqb_eq].
    symmetry. apply upper_char_lower_char, Hu.
  - apply andb_prop in Hc as [_ ->%Ascii.eqb_eq].
    symmetry. apply upper_char_idem.
Qed.

Lemma lookup_key_upper s : lookup_key (upper s) = lookup_key s.
Proof.
  unfold lookup_key. rewrite strip_upper.
  f_equal. generalize (strip s) as u. intros u.
  induction u as [|c u IH]; simpl; [reflexivity|].
  rewrite upper_char_idem, IH. reflexivity.
Qed.

(** Every key of the table has three characters and ends in a
    non-letter, except ["SE11"]. *)
Lemma table_key_shape k v :
  POSTCODE_COORDS !! k = Some v ->
  k = "SE11" \/
  exists a b d, k = String a (String b (String d EmptyString)) /\ isalpha d = false.
Proof.
  intros H. apply elem_of_list_to_map_2 in H.
  repeat (apply elem_of_cons in H as [H|H];
          [injection H as -> _;
           first [left; reflexivity | right; do 3 eexists; split; reflexivity]|]).
  inversion H.
Qed.

Lemma table_short_key k :
  String.length k <= 2 -> POSTCODE_COORDS !! k = None.
Proof.
  intros Hk. apply eq_None_not_Some. intros [v Hv].
  apply table_key_shape in Hv as [->|(a & b & d & -> & _)]; simpl in Hk; lia.
Qed.

Lemma table_letter_key a b d :
  isalpha d = true -> POSTCODE_COORDS !! String a (String b (String d EmptyString)) = None.
Proof.
  intros Hd. apply eq_None_not_Some. intros [v Hv].
  apply table_key_shape in Hv as [Hv|(a' & b' & d' & Hv & Hd')]; [discriminate Hv|].
  injection Hv as -> -> ->. congruence.
Qed.

Lemma rstrip_by_three p a b d :
  let abd := String a (String b (String d EmptyString)) in
  rstrip_by p abd = abd \/ String.length (rstrip_by p abd) <= 2.
Proof.
  simpl. destruct (p d); [|left; reflexivity].
  right. destruct (p b); [destruct (p a)|]; simpl; lia.
Qed.

(** The omission of [I] from the argument of [rstrip] changes the key but
    never the entry found with the table as it stands. *)
Lemma table_at_spec_key s :
  POSTCODE_COORDS !! lookup_key s = POSTCODE_COORDS !! spec_lookup_key s.
Proof.
  unfold lookup_key, spec_lookup_key, base_of, spec_base_of.
  generalize (upper (strip s)) as oc. intros oc.
  destruct (String.length oc <=? 3)%nat eqn:E; [reflexivity|].
  apply Nat.leb_gt in E.
  destruct oc as [|a [|b [|d oc]]]; simpl in E; try lia.
  change (slice_to 3 (String a (String b (String d oc))))
    with (String a (String b (String d EmptyString))).
  unfold rstrip.
  destruct (isalpha d) eqn:Hd.
  - transitivity (@None (pyfloat * pyfloat)); [|symmetry].
    + destruct (rstrip_by_three (fun c => mem_char c RSTRIP_CHARS) a b d) as [->|Hl].
      * apply table_letter_key, Hd.
      * apply table_short_key, Hl.
    + destruct (rstrip_by_three isalpha a b d) as [H|Hl].
      * simpl in H. rewrite Hd in H. destruct (isalpha b), (isalpha a); discriminate H.
      * apply table_short_key, Hl.
  - assert (mem_char d RSTRIP_CHARS = false) as Hm.
    { destruct (mem_char d RSTRIP_CHARS) eqn:Hm; [|reflexivity].
      apply mem_rstrip_chars_isalpha in Hm. congruence. }
    f_equal. cbn [rstrip_by]. rewrite Hm, Hd. reflexivity.
Qed.

(** At the input ["SWI5"] the local [base] is ["SWI"]: [rstrip] stops at
    the letter [I], which its argument lacks, where stripping all trailing
    alphabetic characters gives the empty key.  Neither is in the table,
    so the default pair is returned. *)
Lemma lookup_key_keeps_trailing_I :
  lookup_key "SWI5" = "SWI"
  /\ spec_lookup_key "SWI5" = EmptyString
  /\ lookup_key "SWI5" <> spec_lookup_key "SWI5"
  /\ coords_from_postcode_area (VStr "SWI5") = Ok DEFAULT_LON_LAT.
Proof.
  assert (lookup_key "SWI5" = "SWI") as Hc by (vm_compute; reflexivity).
  assert (spec_lookup_key "SWI5" = EmptyString) as Hs by (vm_compute; reflexivity).
  split; [exact Hc | split; [exact Hs | split]].
  - rewrite Hc, Hs. discriminate.
  - rewrite coords_str, Hc. vm_compute. reflexivity.
Qed.




(** C6: Geocode Lookup returns a pair on every input, a string or [None];
    on [None], on the empty string and on every string whose key is not in
    the table it returns the default pair (51.5074, -0.1278). *)
Theorem coords_total_with_default (o : option string) :
  (exists p, coords_from_postcode_area (outcode_arg o) = Ok p)
  /\ (o = None \/ o = Some EmptyString \/
      (exists s, o = Some s /\ POSTCODE_COORDS !! lookup_key s = None) ->
      coords_from_postcode_area (outcode_arg o) = Ok (fl 51.5074, fl (-0.1278))).
Proof.
  split.
  - destruct o as [s|]; simpl; [rewrite coords_str|]; eexists; reflexivity.
  - intros [->|[->|(s & -> & Hs)]]; simpl; [reflexivity..|].
    rewrite coords_str, Hs. reflexivity.
Qed.

Lemma coords_total_with_default_ZZ9 :
  POSTCODE_COORDS !! lookup_key "ZZ9" = None
  /\ coords_from_postcode_area (VStr "ZZ9") = Ok (fl 51.5074, fl (-0.1278)).
Proof.
  split; [vm_compute; reflexivity|].
  apply (coords_total_with_default (Some "ZZ9")).
  right; right. exists "ZZ9". split; [reflexivity | vm_compute; reflexivity].
Defined.

(** C7: Geocode Lookup gives the same result on two strings that differ
    only in letter case. *)
Theorem coords_case_insensitive (s t : string) :
  differ_only_in_case s t = true ->
  coords_from_postcode_area (VStr s) = coords_from_postcode_area (VStr t).
Proof.
  intros H%differ_only_in_case_upper.
  rewrite !coords_str, <- (lookup_key_upper s), <- (lookup_key_upper t), H.
  reflexivity.
Qed.

Lemma coords_case_insensitive_sw1 :
  differ_only_in_case "sw1" "SW1" = true
  /\ coords_from_postcode_area (VStr "sw1") = coords_from_postcode_area (VStr "SW1").
Proof.
  split; [reflexivity|].
  apply (coords_case_insensitive "sw1" "SW1"). reflexivity.
Defined.

(** C10: the key looked up never has more than three characters, so it is
    never ["SE11"]; on input ["SE11"] the function returns the pair stored
    under ["SE1"], (51.5050, -0.0850), and not the pair stored under
    ["SE11"], (51.4880, -0.1065). *)
Theorem SE11_entry_unreachable :
  (forall s, String.length (lookup_key s) <= 3 /\ lookup_key s <> "SE11")
  /\ POSTCODE_COORDS !! "SE1" = Some (fl 51.5050, fl (-0.0850))
  /\ POSTCODE_COORDS !! "SE11" = Some (fl 51.4880, fl (-0.1065))
  /\ coords_from_postcode_area (VStr "SE11") = Ok (fl 51.5050, fl (-0.0850))
  /\ coords_from_postcode_area (VStr "SE11") <> Ok (fl 51.4880, fl (-0.1065)).
Proof.
  split; [|split; [|split; [|split]]].
  - intros s. pose proof (lookup_key_length s) as Hl. split; [exact Hl|].
    intros E. rewrite E in Hl. simpl in Hl. lia.
  - vm_compute. reflexivity.
  - vm_compute. reflexivity.
  - vm_compute. reflexivity.
  - rewrite coords_str. vm_compute. discriminate.
Qed.

End GeocodeFacts.

(** ** Model download and cache *)

Module ModelCacheFacts.
Import ModelCache.

Lemma write_chunk_fetched p w chunk : fetched (write_chunk p w chunk) = fetched w.
Proof. destruct chunk; reflexivity. Qed.

Lemma write_chunks_fetched p chunks w :
  fetched (foldl (write_chunk p) w chunks) = fetched w.
Proof.
  revert w; induction chunks as [|c chunks IH]; intros w; simpl; [reflexivity|].
  rewrite IH. apply write_chunk_fetched.
Qed.

Lemma write_chunk_file p w chunk acc :
  fs w !! p = Some acc ->
  fs (write_chunk p w chunk) !! p = Some (acc ++ chunk)%list.
Proof.
  intros H. destruct chunk as [|b chunk]; simpl.
  - rewrite app_nil_r. exact H.
  - rewrite lookup_insert_eq, H. reflexivity.
Qed.

Lemma write_chunks_file p chunks w acc :
  fs w !! p = Some acc ->
  fs (foldl (write_chunk p) w chunks) !! p = Some (acc ++ concat chunks)%list.
Proof.
  revert w acc; induction chunks as [|c chunks IH]; intros w acc H; simpl.
  - rewrite app_nil_r. exact H.
  - rewrite (IH _ (acc ++ c)%list); [|apply write_chunk_file, H].
    rewrite <- app_assoc. reflexivity.
Qed.

Lemma download_warm e w :
  path_exists (MODEL_PATH e) w = true ->
  download_model_if_needed e w
  = (Ok VNone, print ("Using cached model at " ++ MODEL_PATH e) w).
Proof. intros H. unfold download_model_if_needed. rewrite H. reflexivity. Qed.

Lemma download_cold_fetched e w :
  path_exists (MODEL_PATH e) w = false ->
  fetched (download_model_if_needed e w).2 = (fetched w ++ [MODEL_URL e])%list.
Proof.
  intros H. unfold download_model_if_needed. rewrite H. simpl.
  destruct (remote e (MODEL_URL e)) as [|status chunks complete]; [reflexivity|].
  destruct ((400 <=? status)%Z && (status <? 600)%Z); [reflexivity|].
  destruct complete; simpl; rewrite write_chunks_fetched; reflexivity.
Qed.

(** C3 as stated fails on a warm cache: the function returns [None], not
    the cache path. *)
Lemma download_warm_returns_no_path :
  path_exists (MODEL_PATH sample_env) warm_world = true
  /\ (download_model_if_needed sample_env warm_world).1 = Ok VNone
  /\ (download_model_if_needed sample_env warm_world).1
     <> Ok (VStr (MODEL_PATH sample_env)).
Proof.
  split; [vm_compute; reflexivity|].
  rewrite download_warm by (vm_compute; reflexivity).
  split; [reflexivity | discriminate].
Qed.

(** C3, amended: the function returns [None].  When the file is present
    it returns at once, printing the cache-hit line and changing nothing
    else; on a cold cache whose download succeeds it returns on completion
    of the download, the cache file then holding the chunks received. *)
Theorem download_returns_none (e : env) (w : world) :
  (path_exists (MODEL_PATH e) w = true ->
   download_model_if_needed e w
   = (Ok VNone, print ("Using cached model at " ++ MODEL_PATH e) w))
  /\ (path_exists (MODEL_PATH e) w = false ->
      forall status chunks,
        remote e (MODEL_URL e) = Reply status chunks true ->
        ((400 <=? status) && (status <? 600))%Z = false ->
        (download_model_if_needed e w).1 = Ok VNone
        /\ fs (download_model_if_needed e w).2 !! MODEL_PATH e = Some (concat chunks)
        /\ last (stdout (download_model_if_needed e w).2) = Some "Model download complete.").
Proof.
  split; [apply download_warm|].
  intros H status chunks Hr Hs. unfold download_model_if_needed.
  rewrite H, Hr, Hs. simpl. split; [reflexivity|]. split.
  - apply (write_chunks_file _ _ _ []). simpl. apply lookup_insert_eq.
  - apply last_snoc.
Qed.

Lemma download_returns_none_sample :
  (download_model_if_needed sample_env warm_world).1 = Ok VNone
  /\ (download_model_if_needed sample_env cold_world).1 = Ok VNone
  /\ fs (download_model_if_needed sample_env cold_world).2 !! MODEL_PATH sample_env
     = Some [Byte.x50; Byte.x4b; Byte.x03].
Proof.
  split.
  - rewrite (proj1 (download_returns_none sample_env warm_world)); [reflexivity|].
    vm_compute. reflexivity.
  - assert (path_exists (MODEL_PATH sample_env) cold_world = false) as Hc
      by (vm_compute; reflexivity).
    destruct (proj2 (download_returns_none sample_env cold_world) Hc 200%Z
                [[Byte.x50; Byte.x4b]; []; [Byte.x03]] eq_refl eq_refl)
      as (Hr & Hf & _).
    split; [exact Hr | exact Hf].
Defined.

(** C5: on a warm cache the function requests nothing and leaves the files
    as they are, the cache file in particular; on a cold cache it makes
    exactly one request, whatever the network answers. *)
Theorem fetches_by_cache_state (e : env) (w : world) :
  (path_exists (MODEL_PATH e) w = true ->
   fetched (download_model_if_needed e w).2 = fetched w
   /\ fs (download_model_if_needed e w).2 = fs w
   /\ fs (download_model_if_needed e w).2 !! MODEL_PATH e = fs w !! MODEL_PATH e)
  /\ (path_exists (MODEL_PATH e) w = false ->
      fetched (download_model_if_needed e w).2 = (fetched w ++ [MODEL_URL e])%list
      /\ length (fetched (download_model_if_needed e w).2) = S (length (fetched w))).
Proof.
  split; intros H.
  - rewrite download_warm by exact H. simpl. repeat split.
  - rewrite download_cold_fetched by exact H. split; [reflexivity|].
    rewrite length_app. simpl. lia.
Qed.

Lemma fetches_by_cache_state_sample :
  fetched (download_model_if_needed sample_env warm_world).2 = []
  /\ fetched (download_model_if_needed sample_env cold_world).2
     = [DEFAULT_MODEL_URL].
Proof.
  split.
  - apply (proj1 (fetches_by_cache_state sample_env warm_world)).
    vm_compute. reflexivity.
  - apply (proj2 (fetches_by_cache_state sample_env cold_world)).
    vm_compute. reflexivity.
Defined.

End ModelCacheFacts.

(** ** Routes *)

Module RoutesFacts.
Import Routes.

#[local] Arguments form_data : simpl never.

Ltac in_list := solve [repeat constructor].

Lemma Ok_inj {A} (a b : A) : Ok a = Ok b -> a = b.
Proof. congruence. Qed.

Ltac map_lookup :=
  repeat first [rewrite lookup_insert_eq
               | rewrite lookup_insert_ne by discriminate
               | rewrite lookup_empty].

Lemma form_data_eq f :
  form_data f
  = <["postcodeArea" := form_get f "postcodeArea"]>
      (<["currentEnergyRating" := form_get f "currentEnergyRating"]>
      (<["tenure" := form_get f "tenure"]>
      (<["propertyType" := form_get f "propertyType"]>
      (<["livingRooms" := form_get f "livingRooms"]>
      (<["bathrooms" := form_get f "bathrooms"]>
      (<["bedrooms" := form_get f "bedrooms"]>
      (<["floorAreaSqM" := form_get f "floorAreaSqM"]> ∅))))))).
Proof. reflexivity. Qed.

(** The value a key of [FEATURES] has in [data] before the coordinates are
    filled in *)
Lemma form_data_lookup f k :
  k ∈ FEATURES -> k <> "latitude" -> k <> "longitude" ->
  form_data f !! k = Some (form_get f k).
Proof.
  intros Hk H1 H2. rewrite form_data_eq.
  repeat (apply elem_of_cons in Hk as [->|Hk]); try congruence;
    [map_lookup; reflexivity..|inversion Hk].
Qed.

Lemma coords_of_form_value f k :
  exists lat lon,
    Geocode.coords_from_postcode_area (form_get f k) = Ok (lat, lon).
Proof.
  assert (form_get f k = VNone \/ exists s, form_get f k = VStr s) as [->|[s ->]].
  { induction f as [|[k' v] f IH]; simpl; [left; reflexivity|].
    destruct (String.eqb k' k); [right; eexists; reflexivity | exact IH]. }
  - do 2 eexists. reflexivity.
  - rewrite GeocodeFacts.coords_str.
    destruct (default _ _) as [lat lon]. do 2 eexists. reflexivity.
Qed.

Lemma cast_or_zero_at data k v :
  data !! k = Some v ->
  cast_or_zero data k = x ← float_or_zero v; Ok (<[k := VFloat x]> data).
Proof. intros H. unfold cast_or_zero, dict_get. rewrite H. reflexivity. Qed.

Lemma float_or_zero_float x : float_or_zero (VFloat x) = Ok x.
Proof. reflexivity. Qed.

(** [predict_form_record] with the loop over [NUMERIC] unrolled *)
Lemma record_unrolled f :
  predict_form_record f =
    '(lat, lon) ← Geocode.coords_from_postcode_area (form_get f "postcodeArea");
    a ← float_or_zero (form_get f "floorAreaSqM");
    b ← float_or_zero (form_get f "bedrooms");
    c ← float_or_zero (form_get f "bathrooms");
    d ← float_or_zero (form_get f "livingRooms");
    Ok (<["livingRooms" := VFloat d]>
        (<["bathrooms" := VFloat c]>
        (<["bedrooms" := VFloat b]>
        (<["floorAreaSqM" := VFloat a]>
        (<["longitude" := VFloat lon]>
        (<["latitude" := VFloat lat]>
        (<["longitude" := VFloat lon]>
        (<["latitude" := VFloat lat]> (form_data f))))))))).
Proof.
  unfold predict_form_record, dict_get, NUMERIC.
  rewrite form_data_lookup by (first [discriminate | in_list]). cbn [default].
  destruct (Geocode.coords_from_postcode_area _) as [[lat lon]|e]; [|reflexivity].
  cbn [mbind result_bind for_keys].
  rewrite (cast_or_zero_at _ "latitude" (VFloat lat)) by (map_lookup; reflexivity).
  rewrite float_or_zero_float. cbn [mbind result_bind].
  rewrite (cast_or_zero_at _ "longitude" (VFloat lon)) by (map_lookup; reflexivity).
  rewrite float_or_zero_float. cbn [mbind result_bind].
  rewrite (cast_or_zero_at _ "floorAreaSqM" (form_get f "floorAreaSqM"))
    by (map_lookup; apply form_data_lookup; first [discriminate | in_list]).
  destruct (float_or_zero (form_get f "floorAreaSqM")) as [a|e]; [|reflexivity].
  cbn [mbind result_bind].
  rewrite (cast_or_zero_at _ "bedrooms" (form_get f "bedrooms"))
    by (map_lookup; apply form_data_lookup; first [discriminate | in_list]).
  destruct (float_or_zero (form_get f "bedrooms")) as [b|e]; [|reflexivity].
  cbn [mbind result_bind].
  rewrite (cast_or_zero_at _ "bathrooms" (form_get f "bathrooms"))
    by (map_lookup; apply form_data_lookup; first [discriminate | in_list]).
  destruct (float_or_zero (form_get f "bathrooms")) as [c|e]; [|reflexivity].
  cbn [mbind result_bind].
  rewrite (cast_or_zero_at _ "livingRooms" (form_get f "livingRooms"))
    by (map_lookup; apply form_data_lookup; first [discriminate | in_list]).
  destruct (float_or_zero (form_get f "livingRooms")) as [d|e]; reflexivity.
Qed.

(** *** The form path *)

Lemma float_or_zero_blank v :
  v = VNone \/ v = VStr EmptyString -> float_or_zero v = Ok (FFinite 0.0).
Proof. intros [->| ->]; reflexivity. Qed.

Lemma float_or_zero_parsed s x :
  PyStr.parse_float s = Some x -> float_or_zero (VStr s) = Ok x.
Proof.
  intros H. destruct s as [|c s]; [discriminate H|].
  unfold float_or_zero. simpl. rewrite H. reflexivity.
Qed.

Lemma float_or_zero_unparsed s :
  s <> EmptyString -> PyStr.parse_float s = None -> float_or_zero (VStr s) = Raise ValueError.
Proof.
  intros Hs H. destruct s as [|c s]; [congruence|].
  unfold float_or_zero. simpl. rewrite H. reflexivity.
Qed.

Lemma form_get_cases f k :
  form_get f k = VNone \/ exists s, form_get f k = VStr s.
Proof.
  induction f as [|[k' v] f IH]; simpl; [left; reflexivity|].
  destruct (String.eqb k' k); [right; eexists; reflexivity | exact IH].
Qed.

(** On a form value the cast either succeeds or raises [ValueError]. *)
Lemma float_or_zero_form f k :
  (exists x, float_or_zero (form_get f k) = Ok x)
  \/ float_or_zero (form_get f k) = Raise ValueError.
Proof.
  destruct (form_get_cases f k) as [->|[s ->]]; [left; eexists; reflexivity|].
  destruct s as [|c s]; [left; eexists; reflexivity|].
  unfold float_or_zero. simpl.
  destruct (PyStr.parse_float _); [left; eexists; reflexivity | right; reflexivity].
Qed.

(** C1 as stated fails: the word [abc] submitted for the bedrooms is not
    coerced to 0.0; [float] raises [ValueError] and so does the handler. *)
Lemma form_word_raises :
  form_get word_form "bedrooms" = VStr "abc"
  /\ PyStr.parse_float "abc" = None
  /\ predict_form_record word_form = Raise ValueError
  /\ predict_form sample_model word_form = Raise ValueError.
Proof. vm_compute. repeat split. Qed.

(** C1, amended: a numeric field read from the form that is missing or
    empty is coerced to 0.0, and when every other value of these fields is
    accepted by [float] the coercion does not fail; a non-empty value that
    [float] rejects is not coerced, the handler raises [ValueError]. *)
Theorem form_numeric_coercion (f : form) :
  ((forall k, k ∈ FORM_NUMERIC ->
      form_get f k = VNone \/ form_get f k = VStr EmptyString \/
      exists s x, form_get f k = VStr s /\ PyStr.parse_float s = Some x) ->
   exists data,
     predict_form_record f = Ok data
     /\ forall k, k ∈ FORM_NUMERIC ->
          form_get f k = VNone \/ form_get f k = VStr EmptyString ->
          data !! k = Some (VFloat (FFinite 0.0)))
  /\ ((exists k s, k ∈ FORM_NUMERIC /\ form_get f k = VStr s /\ s <> EmptyString
                   /\ PyStr.parse_float s = None) ->
      predict_form_record f = Raise ValueError).
Proof.
  rewrite record_unrolled.
  destruct (coords_of_form_value f "postcodeArea") as (lat & lon & ->).
  cbn [mbind result_bind].
  split.
  - intros Hall.
    assert (forall k, k ∈ FORM_NUMERIC ->
              exists x, float_or_zero (form_get f k) = Ok x
                /\ (form_get f k = VNone \/ form_get f k = VStr EmptyString -> x = FFinite 0.0))
      as Hok.
    { intros k Hk. destruct (Hall k Hk) as [H|[H|(s & x & H & Hp)]].
      - exists (FFinite 0.0). split; [apply float_or_zero_blank; auto | reflexivity].
      - exists (FFinite 0.0). split; [apply float_or_zero_blank; auto | reflexivity].
      - exists x. rewrite H. split; [apply float_or_zero_parsed, Hp|].
        intros [E|E]; [discriminate E|]. injection E as ->. discriminate Hp. }
    destruct (Hok "floorAreaSqM") as (a & -> & Ha); [in_list|].
    destruct (Hok "bedrooms") as (b & -> & Hb); [in_list|].
    destruct (Hok "bathrooms") as (c & -> & Hc); [in_list|].
    destruct (Hok "livingRooms") as (d & -> & Hd); [in_list|].
    cbn [mbind result_bind]. eexists. split; [reflexivity|].
    intros k Hk Hblank.
    repeat (apply elem_of_cons in Hk as [->|Hk]); [..|inversion Hk];
      map_lookup; do 2 f_equal; auto.
  - intros (k & s & Hk & Hv & Hs & Hp).
    assert (float_or_zero (form_get f k) = Raise ValueError) as Hbad
      by (rewrite Hv; apply float_or_zero_unparsed; assumption).
    destruct (float_or_zero_form f "floorAreaSqM") as [[a Ea]| ->]; [|reflexivity].
    destruct (float_or_zero_form f "bedrooms") as [[b Eb]|Eb];
      [|rewrite Ea, Eb; reflexivity].
    destruct (float_or_zero_form f "bathrooms") as [[c Ec]|Ec];
      [|rewrite Ea, Eb, Ec; reflexivity].
    destruct (float_or_zero_form f "livingRooms") as [[d Ed]|Ed];
      [|rewrite Ea, Eb, Ec, Ed; reflexivity].
    repeat (apply elem_of_cons in Hk as [->|Hk]); [..|inversion Hk]; congruence.
Qed.

Lemma form_numeric_coercion_samples :
  (exists data,
     predict_form_record blank_form = Ok data
     /\ data !! "bedrooms" = Some (VFloat (FFinite 0.0))
     /\ data !! "livingRooms" = Some (VFloat (FFinite 0.0)))
  /\ predict_form_record word_form = Raise ValueError.
Proof.
  split.
  - destruct (proj1 (form_numeric_coercion blank_form)) as (data & Hd & Hz).
    { intros k Hk.
      repeat (apply elem_of_cons in Hk as [->|Hk]); [..|inversion Hk];
        first [left; reflexivity | right; left; reflexivity]. }
    exists data. split; [exact Hd|].
    split; apply Hz; first [in_list | right; reflexivity | left; reflexivity].
  - apply (proj2 (form_numeric_coercion word_form)).
    exists "bedrooms", "abc". split; [in_list|].
    split; [reflexivity|]. split; [discriminate | vm_compute; reflexivity].
Defined.

(** C8: the coordinates in the record come from the [postcodeArea] field
    alone; two submissions that differ only in their [latitude] and
    [longitude] fields give the same record and the same outcome. *)
Theorem form_coordinates_derived (model : list pyval -> result pyfloat) (f1 f2 : form) :
  (forall k, k <> "latitude" -> k <> "longitude" -> form_get f1 k = form_get f2 k) ->
  predict_form_record f1 = predict_form_record f2
  /\ predict_form model f1 = predict_form model f2
  /\ (forall data, predict_form_record f1 = Ok data ->
        exists lat lon,
          Geocode.coords_from_postcode_area (form_get f1 "postcodeArea") = Ok (lat, lon)
          /\ data !! "latitude" = Some (VFloat lat)
          /\ data !! "longitude" = Some (VFloat lon)).
Proof.
  intros H.
  assert (form_data f1 = form_data f2) as Hdata.
  { rewrite !form_data_eq. rewrite !H by discriminate. reflexivity. }
  assert (predict_form_record f1 = predict_form_record f2) as Hrec.
  { unfold predict_form_record. rewrite Hdata. reflexivity. }
  split; [exact Hrec|]. split.
  - unfold predict_form. rewrite Hrec. reflexivity.
  - intros data. rewrite record_unrolled.
    destruct (coords_of_form_value f1 "postcodeArea") as (lat & lon & ->).
    cbn [mbind result_bind].
    destruct (float_or_zero (form_get f1 "floorAreaSqM")); [|discriminate].
    destruct (float_or_zero (form_get f1 "bedrooms")); [|discriminate].
    destruct (float_or_zero (form_get f1 "bathrooms")); [|discriminate].
    destruct (float_or_zero (form_get f1 "livingRooms")); [|discriminate].
    cbn [mbind result_bind]. intros <-%Ok_inj. exists lat, lon.
    split; [reflexivity|]. split; map_lookup; reflexivity.
Qed.

Lemma form_coordinates_derived_forged :
  predict_form_record forged_submission = predict_form_record sample_submission
  /\ predict_form sample_model forged_submission
     = predict_form sample_model sample_submission.
Proof.
  destruct (form_coordinates_derived sample_model forged_submission sample_submission)
    as (Hr & Hp & _); [|split; assumption].
  intros k H1 H2. unfold forged_submission. cbn [form_get].
  destruct (String.eqb "latitude" k) eqn:E1; [apply String.eqb_eq in E1; congruence|].
  destruct (String.eqb "longitude" k) eqn:E2; [apply String.eqb_eq in E2; congruence|].
  reflexivity.
Defined.

(** C9: the rendered form names its floor-area input [floorAreaSQM] and the
    handler reads [floorAreaSqM]; for every submission whose fields are
    those of the rendered form the handler finds no floor area, and the
    record it hands to the predictor has 0.0 in that column. *)
Theorem rendered_form_floor_area_zero (f : form) :
  (forall k v, (k, v) ∈ f -> k ∈ INDEX_HTML_INPUTS) ->
  form_get f "floorAreaSqM" = VNone
  /\ (forall data, predict_form_record f = Ok data ->
        data !! "floorAreaSqM" = Some (VFloat (FFinite 0.0))
        /\ frame_row data !! 2%nat = Some (VFloat (FFinite 0.0))).
Proof.
  intros Hf.
  assert (form_get f "floorAreaSqM" = VNone) as Hget.
  { induction f as [|[k v] f IH]; [reflexivity|]. simpl.
    assert (k ∈ INDEX_HTML_INPUTS) as Hk by (apply (Hf k v); left).
    assert (String.eqb k "floorAreaSqM" = false) as ->.
    { repeat (apply elem_of_cons in Hk as [->|Hk]); [..|inversion Hk]; reflexivity. }
    apply IH. intros k' v' Hin. apply (Hf k' v'). right. exact Hin. }
  split; [exact Hget|].
  intros data. rewrite record_unrolled, Hget.
  destruct (coords_of_form_value f "postcodeArea") as (lat & lon & ->).
  rewrite (float_or_zero_blank VNone) by (left; reflexivity).
  cbn [mbind result_bind].
  destruct (float_or_zero (form_get f "bedrooms")); [|discriminate].
  destruct (float_or_zero (form_get f "bathrooms")); [|discriminate].
  destruct (float_or_zero (form_get f "livingRooms")); [|discriminate].
  cbn [mbind result_bind]. intros <-%Ok_inj.
  assert (forall d : gmap string pyval,
            d !! "floorAreaSqM" = Some (VFloat (FFinite 0.0)) ->
            frame_row d !! 2%nat = Some (VFloat (FFinite 0.0))) as Hrow.
  { intros d Hd. unfold frame_row, FEATURES. cbn [map]. rewrite Hd. reflexivity. }
  split; [|apply Hrow]; map_lookup; reflexivity.
Qed.

Lemma rendered_form_floor_area_zero_sample :
  form_get sample_submission "floorAreaSQM" = VStr "50"
  /\ exists data,
       predict_form_record sample_submission = Ok data
       /\ data !! "floorAreaSqM" = Some (VFloat (FFinite 0.0)).
Proof.
  split; [reflexivity|].
  assert (exists data, predict_form_record sample_submission = Ok data) as [data E].
  { rewrite record_unrolled.
    destruct (coords_of_form_value sample_submission "postcodeArea") as (lat & lon & ->).
    cbn [mbind result_bind].
    rewrite (float_or_zero_blank (form_get sample_submission "floorAreaSqM"))
      by (left; reflexivity).
    change (form_get sample_submission "bedrooms") with (VStr "2").
    change (form_get sample_submission "bathrooms") with (VStr "1").
    change (form_get sample_submission "livingRooms") with (VStr "1").
    erewrite (float_or_zero_parsed "2") by reflexivity.
    erewrite (float_or_zero_parsed "1") by reflexivity.
    cbn [mbind result_bind]. eexists. reflexivity. }
  exists data. split; [exact E|].
  apply (rendered_form_floor_area_zero sample_submission); [|exact E].
  intros k v Hin.
  repeat (apply elem_of_cons in Hin as [[= -> _]|Hin]); [..|inversion Hin]; in_list.
Defined.

(** *** The JSON path *)

Lemma missing_of_dict (d : gmap string pyval) (fs : list string) :
  missing_of (VDict d) fs = Ok (filter (fun f => d !! f = None) fs).
Proof.
  induction fs as [|f fs IH]; [reflexivity|].
  cbn [missing_of py_in mbind result_bind]. rewrite IH. cbn [mbind result_bind].
  destruct (d !! f) as [v|] eqn:E.
  - rewrite bool_decide_eq_true_2 by eauto.
    rewrite filter_cons_False by congruence. reflexivity.
  - rewrite bool_decide_eq_false_2 by (intros [v Hv]; discriminate Hv).
    rewrite filter_cons_True by exact E. reflexivity.
Qed.

(** C4: on a JSON object, [POST /predict] answers 400 exactly when one of
    the ten keys of [FEATURES] is absent, the message then lists the absent
    keys and no others, and with all ten keys present the answer is not a
    400. *)
Theorem predict_400_iff_missing (model : list pyval -> result pyfloat)
    (d : gmap string pyval) :
  let missing := filter (fun f => d !! f = None) FEATURES in
  (status_of (predict model (VDict d)) = 400%Z
   <-> exists f, f ∈ FEATURES /\ d !! f = None)
  /\ (status_of (predict model (VDict d)) = 400%Z ->
      predict model (VDict d)
      = Ok (Json [("error", VStr ("Missing fields: " ++ repr_list missing))] 400))
  /\ (forall f, f ∈ missing <-> f ∈ FEATURES /\ d !! f = None)
  /\ ((forall f, f ∈ FEATURES -> is_Some (d !! f)) ->
      status_of (predict model (VDict d)) <> 400%Z).
Proof.
  intros missing.
  assert (forall f, f ∈ missing <-> f ∈ FEATURES /\ d !! f = None) as Hmem.
  { intros f. unfold missing. rewrite list_elem_of_filter. tauto. }
  assert (missing = [] -> status_of (predict model (VDict d)) <> 400%Z) as Hnil.
  { intros E. unfold predict. rewrite missing_of_dict. fold missing. rewrite E.
    cbn [mbind result_bind].
    destruct (for_keys (copy_key (VDict d)) FEATURES ∅) as [row|e]; [|discriminate].
    cbn [mbind result_bind].
    destruct (for_keys cast NUMERIC row) as [row'|e]; [|discriminate].
    cbn [mbind result_bind]. destruct (model_predict model row'); discriminate. }
  assert (missing <> [] ->
          predict model (VDict d)
          = Ok (Json [("error", VStr ("Missing fields: " ++ repr_list missing))] 400))
    as Hcons.
  { intros E. unfold predict. rewrite missing_of_dict. fold missing.
    cbn [mbind result_bind]. destruct missing; [congruence | reflexivity]. }
  split; [split|split; [|split]].
  - intros Hs. destruct missing as [|f l] eqn:E; [exfalso; apply Hnil; auto|].
    exists f. apply Hmem. left.
  - intros (f & Hf). apply Hmem in Hf.
    rewrite Hcons; [reflexivity|]. intros E. rewrite E in Hf. inversion Hf.
  - intros Hs. apply Hcons. intros E. apply Hnil in E. contradiction.
  - exact Hmem.
  - intros Hall. apply Hnil.
    destruct missing as [|f l] eqn:E; [reflexivity|].
    assert (f ∈ f :: l) as Hf by left. apply Hmem in Hf as [Hf Hn].
    destruct (Hall f Hf) as [v Hv]. congruence.
Qed.

Lemma predict_400_iff_missing_samples :
  predict sample_model (VDict payload_without_tenure)
  = Ok (Json [("error", VStr "Missing fields: ['tenure']")] 400)
  /\ status_of (predict sample_model (VDict full_payload)) <> 400%Z.
Proof.
  split.
  - pose proof (predict_400_iff_missing sample_model payload_without_tenure) as H.
    cbv zeta in H. destruct H as (Hiff & Hmsg & _).
    rewrite Hmsg; [vm_compute; reflexivity|].
    apply Hiff. exists "tenure". split; [in_list | vm_compute; reflexivity].
  - pose proof (predict_400_iff_missing sample_model full_payload) as H.
    cbv zeta in H. destruct H as (_ & _ & _ & Hfull).
    apply Hfull. intros f Hf.
    repeat (apply elem_of_cons in Hf as [->|Hf]); [..|inversion Hf];
      vm_compute; eauto.
Defined.

End RoutesFacts.

(** ** Start-up: download, load and health check *)

Module StartupFacts.
Import ModelCache ModelCacheFacts Startup.

Lemma write_chunk_other q p w chunk :
  p <> q -> fs (write_chunk q w chunk) !! p = fs w !! p.
Proof.
  intros H. destruct chunk as [|b chunk]; [reflexivity|].
  simpl. apply lookup_insert_ne. congruence.
Qed.

Lemma write_chunks_other q p chunks w :
  p <> q -> fs (foldl (write_chunk q) w chunks) !! p = fs w !! p.
Proof.
  intros H. revert w; induction chunks as [|c chunks IH]; intros w; simpl.
  - reflexivity.
  - rewrite IH. apply write_chunk_other, H.
Qed.

Lemma path_exists_true p w : path_exists p w = true <-> is_Some (fs w !! p).
Proof. unfold path_exists. apply bool_decide_eq_true. Qed.

Lemma path_exists_false p w : path_exists p w = false <-> fs w !! p = None.
Proof.
  unfold path_exists. rewrite bool_decide_eq_false, eq_None_not_Some. reflexivity.
Qed.

(** What a call on a cold cache does, by the answer of the server *)
Lemma download_cold_refused e w :
  path_exists (MODEL_PATH e) w = false ->
  refused (remote e (MODEL_URL e)) = true ->
  (exists err, (download_model_if_needed e w).1 = Raise err)
  /\ fs (download_model_if_needed e w).2 = fs w.
Proof.
  intros Hc Hr. unfold download_model_if_needed. rewrite Hc. simpl.
  destruct (remote e (MODEL_URL e)) as [|status chunks complete]; simpl in Hr.
  - split; [eexists|]; reflexivity.
  - rewrite Hr. split; [eexists|]; reflexivity.
Qed.

Lemma download_cold_accepted e w status chunks complete :
  path_exists (MODEL_PATH e) w = false ->
  remote e (MODEL_URL e) = Reply status chunks complete ->
  refused (Reply status chunks complete) = false ->
  (download_model_if_needed e w).1
    = (if complete then Ok VNone else Raise ConnectionError)
  /\ fs (download_model_if_needed e w).2 !! MODEL_PATH e = Some (concat chunks).
Proof.
  intros Hc Hr Hs. simpl in Hs. unfold download_model_if_needed.
  rewrite Hc, Hr, Hs. simpl.
  assert (fs (foldl (write_chunk (MODEL_PATH e))
                (open_wb (MODEL_PATH e)
                   (request (MODEL_URL e)
                      (print ("Downloading model from " ++ MODEL_URL e ++ " ...") w)))
                chunks) !! MODEL_PATH e = Some (concat chunks)) as Hf.
  { apply (write_chunks_file _ _ _ []). simpl. apply lookup_insert_eq. }
  destruct complete; simpl; split; first [reflexivity | exact Hf].
Qed.

(** A call that returns leaves the cache file in place. *)
Lemma download_ok_exists e w v :
  (download_model_if_needed e w).1 = Ok v ->
  path_exists (MODEL_PATH e) (download_model_if_needed e w).2 = true.
Proof.
  intros Hok. destruct (path_exists (MODEL_PATH e) w) eqn:Hc.
  - rewrite download_warm by exact Hc. exact Hc.
  - destruct (remote e (MODEL_URL e)) as [|status chunks complete] eqn:Hr.
    + destruct (download_cold_refused e w Hc) as [[err He] _];
        [rewrite Hr; reflexivity | congruence].
    + destruct (refused (Reply status chunks complete)) eqn:Hs.
      * destruct (download_cold_refused e w Hc) as [[err He] _];
          [rewrite Hr; exact Hs | congruence].
      * destruct (download_cold_accepted e w _ _ _ Hc Hr Hs) as [_ Hf].
        apply (proj2 (path_exists_true _ _)). eexists. exact Hf.
Qed.

(** A call never touches a file other than the cache file. *)
Theorem download_frames_other_files (e : env) (w : world) (p : string) :
  p <> MODEL_PATH e ->
  fs (download_model_if_needed e w).2 !! p = fs w !! p.
Proof.
  intros Hp. destruct (path_exists (MODEL_PATH e) w) eqn:Hc.
  { rewrite download_warm by exact Hc. reflexivity. }
  unfold download_model_if_needed. rewrite Hc. simpl.
  destruct (remote e (MODEL_URL e)) as [|status chunks complete]; [reflexivity|].
  destruct ((400 <=? status) && (status <? 600))%Z; [reflexivity|].
  destruct complete; simpl; rewrite write_chunks_other by exact Hp;
    simpl; apply lookup_insert_ne; congruence.
Qed.

Lemma download_frames_other_files_sample :
  "/etc/hosts" <> MODEL_PATH sample_env
  /\ fs (download_model_if_needed sample_env cold_world).2 !! "/etc/hosts"
     = fs cold_world !! "/etc/hosts".
Proof.
  assert ("/etc/hosts" <> MODEL_PATH sample_env) as H by (vm_compute; discriminate).
  split; [exact H|].
  apply (download_frames_other_files sample_env cold_world "/etc/hosts" H).
Defined.

(** When the server gives no answer or an error status on a cold cache,
    the call raises, creates no file and leaves the cache cold, so the
    next call requests the URL again. *)
Theorem refused_download_stays_cold (e : env) (w : world) :
  path_exists (MODEL_PATH e) w = false ->
  refused (remote e (MODEL_URL e)) = true ->
  (exists err, (download_model_if_needed e w).1 = Raise err)
  /\ fs (download_model_if_needed e w).2 = fs w
  /\ path_exists (MODEL_PATH e) (download_model_if_needed e w).2 = false
  /\ fetched (download_model_if_needed e (download_model_if_needed e w).2).2
     = (fetched w ++ [MODEL_URL e; MODEL_URL e])%list.
Proof.
  intros Hc Hr.
  destruct (download_cold_refused e w Hc Hr) as [Herr Hfs].
  assert (path_exists (MODEL_PATH e) (download_model_if_needed e w).2 = false) as Hc'.
  { apply (proj2 (path_exists_false _ _)). rewrite Hfs. apply (proj1 (path_exists_false _ _)), Hc. }
  split; [exact Herr|]. split; [exact Hfs|]. split; [exact Hc'|].
  rewrite (download_cold_fetched _ _ Hc'), (download_cold_fetched _ _ Hc).
  rewrite <- app_assoc. reflexivity.
Qed.

Lemma refused_download_stays_cold_404 :
  (download_model_if_needed missing_env cold_world).1 = Raise HTTPError
  /\ fs (download_model_if_needed missing_env cold_world).2 = ∅.
Proof.
  destruct (refused_download_stays_cold missing_env cold_world)
    as (_ & Hfs & _); [reflexivity..|].
  split; [reflexivity | exact Hfs].
Defined.

(** Once a call has returned, any number of further calls return [None]
    at once: none of them requests anything or changes a file. *)
Theorem download_at_most_once (e : env) (w : world) (v : pyval) (n : nat) :
  (download_model_if_needed e w).1 = Ok v ->
  let again := Nat.iter n (fun w' => (download_model_if_needed e w').2) in
  let w1 := (download_model_if_needed e w).2 in
  (download_model_if_needed e (again w1)).1 = Ok VNone
  /\ fetched (again w1) = fetched w1
  /\ fs (again w1) = fs w1.
Proof.
  intros Hok again w1.
  assert (path_exists (MODEL_PATH e) w1 = true) as Hw1
    by (apply (download_ok_exists e w v Hok)).
  assert (path_exists (MODEL_PATH e) (again w1) = true
          /\ fetched (again w1) = fetched w1 /\ fs (again w1) = fs w1) as (Hn & Hf & Hs).
  { unfold again. induction n as [|n (IHe & IHf & IHs)]; [auto|].
    simpl. rewrite download_warm by exact IHe. simpl. auto. }
  split; [|split; assumption].
  rewrite download_warm by exact Hn. reflexivity.
Qed.

Lemma download_at_most_once_sample :
  fetched (Nat.iter 3 (fun w' => (download_model_if_needed sample_env w').2)
             (download_model_if_needed sample_env cold_world).2)
  = [DEFAULT_MODEL_URL].
Proof.
  destruct (download_at_most_once sample_env cold_world VNone 3) as (_ & Hf & _);
    [reflexivity|].
  rewrite Hf. reflexivity.
Defined.

(** A stream that breaks after a good status leaves the partial file at
    the cache path: the call raises, and the next call takes the file for
    a cached model, returning without a request. *)
Theorem broken_download_is_reused (e : env) (w : world) (status : Z)
    (chunks : list bytes) :
  path_exists (MODEL_PATH e) w = false ->
  remote e (MODEL_URL e) = Reply status chunks false ->
  ((400 <=? status) && (status <? 600))%Z = false ->
  let w1 := (download_model_if_needed e w).2 in
  (download_model_if_needed e w).1 = Raise ConnectionError
  /\ fs w1 !! MODEL_PATH e = Some (concat chunks)
  /\ (download_model_if_needed e w1).1 = Ok VNone
  /\ fetched (download_model_if_needed e w1).2 = (fetched w ++ [MODEL_URL e])%list.
Proof.
  intros Hc Hr Hs w1.
  destruct (download_cold_accepted e w _ _ _ Hc Hr Hs) as [H1 Hf].
  assert (path_exists (MODEL_PATH e) w1 = true) as Hw1
    by (apply (proj2 (path_exists_true _ _)); eexists; exact Hf).
  split; [exact H1|]. split; [exact Hf|].
  rewrite download_warm by exact Hw1. split; [reflexivity|].
  simpl. apply download_cold_fetched, Hc.
Qed.

Lemma broken_download_is_reused_sample :
  (download_model_if_needed broken_env cold_world).1 = Raise ConnectionError
  /\ (download_model_if_needed broken_env
        (download_model_if_needed broken_env cold_world).2).1 = Ok VNone.
Proof.
  destruct (broken_download_is_reused broken_env cold_world 200
              [[Byte.x50; Byte.x4b]]) as (H1 & _ & H2 & _); [reflexivity..|].
  split; [exact H1 | exact H2].
Defined.

(** After a call, [/health] reports [model_loaded] true exactly when the
    file was there before or the server was not refused: it reflects the
    presence of the file, also of a partial one. *)
Theorem health_after_download (e : env) (w : world) :
  health e (download_model_if_needed e w).2
  = Routes.Json
      [("status", VStr "ok");
       ("model_loaded",
        VBool (path_exists (MODEL_PATH e) w
               || negb (refused (remote e (MODEL_URL e)))))] 200.
Proof.
  unfold health.
  assert (path_exists (MODEL_PATH e) (download_model_if_needed e w).2
          = path_exists (MODEL_PATH e) w
            || negb (refused (remote e (MODEL_URL e)))) as ->; [|reflexivity].
  destruct (path_exists (MODEL_PATH e) w) eqn:Hc.
  - rewrite download_warm by exact Hc. exact Hc.
  - simpl. destruct (refused (remote e (MODEL_URL e))) eqn:Hr.
    + apply (proj2 (path_exists_false _ _)).
      destruct (download_cold_refused e w Hc Hr) as [_ ->].
      apply (proj1 (path_exists_false _ _)), Hc.
    + destruct (remote e (MODEL_URL e)) as [|status chunks complete] eqn:Hrem;
        [discriminate Hr|].
      destruct (download_cold_accepted e w _ _ _ Hc Hrem Hr) as [_ Hf].
      apply (proj2 (path_exists_true _ _)). eexists. exact Hf.
Qed.

(** [register_log_transform] puts [log_transform] into [__main__] and
    removes nothing: every name of every module is still there. *)
Theorem register_log_transform_extends (mods : gmap string (gset string)) :
  "log_transform" ∈ default ∅ (register_log_transform mods !! "__main__")
  /\ (forall m names, mods !! m = Some names ->
        exists names', register_log_transform mods !! m = Some names'
                       /\ names ⊆ names')
  /\ (forall m, m <> "__main__" -> register_log_transform mods !! m = mods !! m).
Proof.
  unfold register_log_transform. split; [|split].
  - rewrite lookup_insert_eq. simpl. set_solver.
  - intros m names Hm. destruct (decide (m = "__main__")) as [->|Hne].
    + rewrite lookup_insert_eq. eexists. split; [reflexivity|].
      rewrite bool_decide_eq_true_2 by eauto. rewrite Hm. simpl. set_solver.
    + rewrite lookup_insert_ne by congruence.
      exists names. split; [|reflexivity].
      case_bool_decide; [exact Hm|]. rewrite lookup_insert_ne by congruence. exact Hm.
  - intros m Hne. rewrite lookup_insert_ne by congruence.
    case_bool_decide; [reflexivity|]. apply lookup_insert_ne. congruence.
Qed.

(** [load_model] never fails at [open]: when the download raises, so does
    the load, with the modules as they were; otherwise the cache file is
    there and its bytes go to [pickle.load], with [log_transform]
    registered. *)
Theorem load_model_outcome (P : Type)
    (pickle_load : gmap string (gset string) -> bytes -> option P)
    (e : env) (w : world) (mods : gmap string (gset string)) :
  let w1 := (download_model_if_needed e w).2 in
  (load_model P pickle_load e w mods).1.1 <> FileNotFound
  /\ (forall err, (download_model_if_needed e w).1 = Raise err ->
        load_model P pickle_load e w mods = (DownloadRaised err, w1, mods))
  /\ (forall v, (download_model_if_needed e w).1 = Ok v ->
        exists content,
          fs w1 !! MODEL_PATH e = Some content
          /\ load_model P pickle_load e w mods
             = (match pickle_load (register_log_transform mods) content with
                | Some p => Loaded p
                | None => UnpickleRaised
                end, w1, register_log_transform mods)).
Proof.
  intros w1.
  assert (forall v, (download_model_if_needed e w).1 = Ok v ->
            exists content,
              fs w1 !! MODEL_PATH e = Some content
              /\ load_model P pickle_load e w mods
                 = (match pickle_load (register_log_transform mods) content with
                    | Some p => Loaded p
                    | None => UnpickleRaised
                    end, w1, register_log_transform mods)) as Hok.
  { intros v Hv. pose proof (download_ok_exists e w v Hv) as Hex.
    apply (proj1 (path_exists_true _ _)) in Hex as [content Hc]. exists content.
    split; [exact Hc|]. unfold load_model, w1 in *.
    destruct (download_model_if_needed e w) as [r w']. simpl in *. subst r.
    rewrite Hc. destruct (pickle_load _ content); reflexivity. }
  assert (forall err, (download_model_if_needed e w).1 = Raise err ->
            load_model P pickle_load e w mods = (DownloadRaised err, w1, mods)) as Herr.
  { intros err Hv. unfold load_model, w1.
    destruct (download_model_if_needed e w) as [r w']. simpl in *. subst r.
    reflexivity. }
  split; [|split; assumption].
  destruct (download_model_if_needed e w).1 as [v|err] eqn:E.
  - destruct (Hok v eq_refl) as (content & _ & ->). simpl.
    destruct (pickle_load _ content); discriminate.
  - rewrite (Herr err eq_refl). discriminate.
Qed.

Lemma load_model_outcome_sample :
  (load_model bytes sample_pickle_load sample_env cold_world ∅).1.1
  = Loaded [Byte.x50; Byte.x4b; Byte.x03].
Proof.
  destruct (load_model_outcome bytes sample_pickle_load sample_env cold_world ∅)
    as (_ & _ & Hok).
  destruct (Hok VNone) as (content & Hc & ->); [reflexivity|].
  assert (content = [Byte.x50; Byte.x4b; Byte.x03]) as ->.
  { vm_compute in Hc. congruence. }
  vm_compute. reflexivity.
Defined.

End StartupFacts.

(** ** Geocode lookup: prefixes, padding and the dead entry *)

Module GeocodeMoreFacts.
Import PyStr PyStrFacts Geocode GeocodeFacts Aux.

Lemma append_nil (t : string) : EmptyString ++ t = t.
Proof. reflexivity. Qed.

Lemma append_cons c (s t : string) : String c s ++ t = String c (s ++ t).
Proof. reflexivity. Qed.

Lemma rstrip_by_keep p c s :
  p c = false -> rstrip_by p (String c s) = String c (rstrip_by p s).
Proof. intros H. simpl. rewrite H. destruct (rstrip_by p s); reflexivity. Qed.

Lemma rstrip_by_cons_ne p c s :
  rstrip_by p s <> EmptyString -> rstrip_by p (String c s) = String c (rstrip_by p s).
Proof. intros H. simpl. destruct (rstrip_by p s); [congruence | reflexivity]. Qed.

(** The key of a string that starts with three characters which are not
    whitespace at either end, are unchanged by [upper] and do not end in a
    letter of [RSTRIP_CHARS]: those three characters. *)
Lemma lookup_key_prefix a b d rest :
  isspace a = false -> isspace d = false ->
  upper_char a = a -> upper_char b = b -> upper_char d = d ->
  mem_char d RSTRIP_CHARS = false ->
  lookup_key (String a (String b (String d rest)))
  = String a (String b (String d EmptyString)).
Proof.
  intros Ha Hd Ua Ub Ud Hm. unfold lookup_key, strip.
  cbn [lstrip_by]. rewrite Ha.
  rewrite (rstrip_by_cons_ne _ a), (rstrip_by_cons_ne _ b), (rstrip_by_keep _ d _ Hd).
  - cbn [upper]. rewrite Ua, Ub, Ud. unfold base_of.
    destruct (upper (rstrip_by isspace rest)) as [|c r]; [reflexivity|].
    cbn [String.length Nat.leb slice_to]. unfold rstrip. cbn [rstrip_by].
    rewrite Hm. reflexivity.
  - rewrite (rstrip_by_keep _ d _ Hd). discriminate.
  - rewrite (rstrip_by_cons_ne _ b), (rstrip_by_keep _ d _ Hd); [discriminate|].
    rewrite (rstrip_by_keep _ d _ Hd). discriminate.
Qed.

(** An outcode that begins with a three-character key of the table gets
    the pair of that key, whatever follows: a district suffix, the inward
    part of a full postcode, whitespace. *)
Theorem coords_of_table_prefix (k rest : string) (p : pyfloat * pyfloat) :
  POSTCODE_COORDS !! k = Some p ->
  String.length k = 3 ->
  coords_from_postcode_area (VStr (k ++ rest)) = Ok p.
Proof.
  intros Hk Hl. rewrite coords_str.
  pose proof Hk as Hin. apply elem_of_list_to_map_2 in Hin.
  repeat (apply elem_of_cons in Hin as [Hin|Hin];
          [injection Hin as -> _; simpl in Hl;
           first [discriminate Hl
                 | rewrite !append_cons, append_nil;
                   rewrite lookup_key_prefix by reflexivity; rewrite Hk; reflexivity]|]).
  inversion Hin.
Qed.

Lemma coords_of_table_prefix_full_postcode :
  coords_from_postcode_area (VStr "SW1A 2AA") = Ok (fl 51.5018, fl (-0.1416)).
Proof.
  apply (coords_of_table_prefix "SW1" "A 2AA"); [vm_compute|]; reflexivity.
Defined.

Lemma lstrip_by_app_space ws t :
  all_space ws = true -> lstrip_by isspace (ws ++ t) = lstrip_by isspace t.
Proof.
  induction ws as [|c ws IH]; [reflexivity|].
  rewrite append_cons. simpl. intros [Hc Hw]%andb_prop. rewrite Hc. exact (IH Hw).
Qed.

Lemma rstrip_by_space_only ws :
  all_space ws = true -> rstrip_by isspace ws = EmptyString.
Proof.
  induction ws as [|c ws IH]; simpl; [reflexivity|].
  intros [Hc Hw]%andb_prop. rewrite (IH Hw), Hc. reflexivity.
Qed.

Lemma rstrip_by_app_space t ws :
  all_space ws = true -> rstrip_by isspace (t ++ ws) = rstrip_by isspace t.
Proof.
  intros Hw. induction t as [|c t IH].
  - rewrite append_nil. apply rstrip_by_space_only, Hw.
  - rewrite append_cons. simpl. rewrite IH. reflexivity.
Qed.

Lemma strip_app_space t ws :
  all_space ws = true -> strip (t ++ ws) = strip t.
Proof.
  intros Hw. unfold strip. induction t as [|c t IH].
  - rewrite append_nil. simpl. rewrite rstrip_by_space_only; [reflexivity|].
    clear -Hw. induction ws as [|c ws IH]; [reflexivity|]. simpl in *.
    apply andb_prop in Hw as [Hc Hw]. rewrite Hc. exact (IH Hw).
  - rewrite append_cons. simpl. destruct (isspace c); [exact IH|].
    rewrite <- append_cons. apply (rstrip_by_app_space (String c t) ws Hw).
Qed.

(** Whitespace before and after the outcode does not change the result. *)
Theorem coords_ignores_padding (ws s ws' : string) :
  all_space ws = true -> all_space ws' = true ->
  coords_from_postcode_area (VStr (ws ++ s ++ ws'))
  = coords_from_postcode_area (VStr s).
Proof.
  intros Hw Hw'. rewrite !coords_str. do 3 f_equal.
  unfold lookup_key. do 2 f_equal.
  unfold strip. rewrite lstrip_by_app_space by exact Hw.
  apply (strip_app_space s ws' Hw').
Qed.

Lemma coords_ignores_padding_sample :
  coords_from_postcode_area (VStr "  ec1 ") = coords_from_postcode_area (VStr "ec1").
Proof.
  apply (coords_ignores_padding "  " "ec1" " "); reflexivity.
Defined.

(** No input, a string or [None], ever gets the pair the table stores
    under the four-character name: the entry is dead data. *)
Theorem SE11_pair_never_returned (o : option string) :
  coords_from_postcode_area (outcode_arg o) <> Ok (fl 51.4880, fl (-0.1065)).
Proof.
  destruct o as [s|]; simpl; [|discriminate].
  rewrite coords_str.
  destruct (POSTCODE_COORDS !! lookup_key s) as [p|] eqn:E; [|discriminate].
  pose proof (lookup_key_length s) as Hl.
  apply elem_of_list_to_map_2 in E.
  repeat (apply elem_of_cons in E as [E|E];
          [injection E as Hk ->; first [discriminate | rewrite Hk in Hl; simpl in Hl; lia]|]).
  inversion E.
Qed.

End GeocodeMoreFacts.

(** ** Routes: the record of the form path and the row of the JSON path *)

Module RoutesMoreFacts.
Import Routes RoutesFacts Aux.

#[local] Arguments form_data : simpl never.

(** *** Loops over keys *)

Lemma copy_key_at (d row : gmap string pyval) k v :
  d !! k = Some v -> copy_key (VDict d) row k = Ok (<[k := v]> row).
Proof. intros H. unfold copy_key, py_getitem. rewrite H. reflexivity. Qed.

Lemma cast_at_ok (row : gmap string pyval) k v x :
  row !! k = Some v -> py_float v = Ok x ->
  cast row k = Ok (<[k := VFloat x]> row).
Proof. intros H Hx. unfold cast. rewrite H, Hx. reflexivity. Qed.

Lemma cast_at_raise (row : gmap string pyval) k v e :
  row !! k = Some v -> py_float v = Raise e -> cast row k = Raise e.
Proof. intros H Hx. unfold cast. rewrite H, Hx. reflexivity. Qed.

Lemma cast_at_none (row : gmap string pyval) k :
  row !! k = None -> cast row k = Raise KeyError.
Proof. intros H. unfold cast. rewrite H. reflexivity. Qed.

(** The comprehension of line 235 copies the entries under [ks]. *)
Lemma copy_loop (d : gmap string pyval) ks row0 :
  (forall k, k ∈ ks -> is_Some (d !! k)) ->
  exists row,
    for_keys (copy_key (VDict d)) ks row0 = Ok row
    /\ forall j, row !! j = if bool_decide (j ∈ ks) then d !! j else row0 !! j.
Proof.
  revert row0; induction ks as [|k ks IH]; intros row0 Hall.
  - exists row0. split; [reflexivity|]. intros j.
    rewrite bool_decide_eq_false_2 by (intros H; inversion H). reflexivity.
  - destruct (Hall k) as [v Hv]; [left|].
    destruct (IH (<[k := v]> row0)) as (row & Hrow & Hlook).
    { intros k' Hk'. apply Hall. right. exact Hk'. }
    exists row. split.
    + cbn [for_keys]. rewrite (copy_key_at _ _ _ _ Hv).
      cbn [mbind result_bind]. exact Hrow.
    + intros j. rewrite Hlook.
      destruct (decide (j ∈ ks)) as [Hin|Hnin].
      * rewrite !bool_decide_eq_true_2; [reflexivity | right; exact Hin | exact Hin].
      * rewrite (bool_decide_eq_false_2 _ Hnin).
        destruct (decide (k = j)) as [->|Hne].
        -- rewrite bool_decide_eq_true_2 by left. rewrite lookup_insert_eq. exact (eq_sym Hv).
        -- rewrite lookup_insert_ne by exact Hne.
           rewrite bool_decide_eq_false_2; [reflexivity|].
           intros [E|E]%elem_of_cons; [congruence | contradiction].
Qed.

Lemma cast_value_float x : cast_value (VFloat x) = VFloat x.
Proof. reflexivity. Qed.

Lemma cast_value_ok v x : py_float v = Ok x -> cast_value v = VFloat x.
Proof. intros H. unfold cast_value. rewrite H. reflexivity. Qed.

(** The loop of lines 236-237 when every value under [ks] is accepted by
    [float] *)
Lemma cast_loop_ok ks (row : gmap string pyval) :
  (forall k, k ∈ ks -> exists v x, row !! k = Some v /\ py_float v = Ok x) ->
  exists row',
    for_keys cast ks row = Ok row'
    /\ forall j, row' !! j
         = if bool_decide (j ∈ ks) then cast_value <$> row !! j else row !! j.
Proof.
  revert row; induction ks as [|k ks IH]; intros row Hall.
  - exists row. split; [reflexivity|]. intros j.
    rewrite bool_decide_eq_false_2 by (intros H; inversion H). reflexivity.
  - destruct (Hall k) as (v & x & Hv & Hx); [left|].
    destruct (IH (<[k := VFloat x]> row)) as (row' & Hrow & Hlook).
    { intros k' Hk'. destruct (decide (k = k')) as [<-|Hne].
      - exists (VFloat x), x. rewrite lookup_insert_eq. split; reflexivity.
      - rewrite lookup_insert_ne by exact Hne. apply Hall. right. exact Hk'. }
    exists row'. split.
    + cbn [for_keys]. rewrite (cast_at_ok _ _ _ _ Hv Hx).
      cbn [mbind result_bind]. exact Hrow.
    + intros j. rewrite Hlook.
      destruct (decide (k = j)) as [<-|Hne].
      * rewrite lookup_insert_eq, Hv. cbn [fmap option_fmap option_map].
        rewrite cast_value_float, (cast_value_ok _ _ Hx).
        rewrite (bool_decide_eq_true_2 (k ∈ k :: ks)) by left.
        destruct (bool_decide (k ∈ ks)); reflexivity.
      * rewrite lookup_insert_ne by exact Hne.
        destruct (decide (j ∈ ks)) as [Hin|Hnin].
        -- rewrite !bool_decide_eq_true_2; [reflexivity | right; exact Hin | exact Hin].
        -- rewrite !bool_decide_eq_false_2; [reflexivity | | exact Hnin].
           intros [E|E]%elem_of_cons; [congruence | contradiction].
Qed.

(** The same loop when some value under [ks] is rejected by [float] *)
Lemma cast_loop_raises ks (row : gmap string pyval) k v e :
  k ∈ ks -> row !! k = Some v -> py_float v = Raise e ->
  exists e', for_keys cast ks row = Raise e'.
Proof.
  revert row; induction ks as [|k0 ks IH]; intros row Hk Hv He; [inversion Hk|].
  cbn [for_keys].
  destruct (row !! k0) as [v0|] eqn:Hv0;
    [|rewrite (cast_at_none _ _ Hv0); eexists; reflexivity].
  destruct (py_float v0) as [x|e0] eqn:Hx;
    [|rewrite (cast_at_raise _ _ _ _ Hv0 Hx); eexists; reflexivity].
  rewrite (cast_at_ok _ _ _ _ Hv0 Hx). cbn [mbind result_bind].
  destruct (decide (k0 = k)) as [->|Hne]; [congruence|].
  apply IH.
  - apply elem_of_cons in Hk as [E|Hk]; [congruence | exact Hk].
  - rewrite lookup_insert_ne by exact Hne. exact Hv.
  - exact He.
Qed.

Lemma missing_of_complete (d : gmap string pyval) :
  (forall k, k ∈ FEATURES -> is_Some (d !! k)) ->
  missing_of (VDict d) FEATURES = Ok [].
Proof.
  intros Hall. rewrite missing_of_dict. f_equal.
  destruct (filter (fun f => d !! f = None) FEATURES) as [|k l] eqn:E; [reflexivity|].
  assert (k ∈ filter (fun f => d !! f = None) FEATURES) as Hk by (rewrite E; left).
  apply list_elem_of_filter in Hk as [Hn Hk].
  destruct (Hall k Hk) as [v Hv]. congruence.
Qed.

Lemma numeric_is_feature k : k ∈ NUMERIC -> k ∈ FEATURES.
Proof.
  intros Hk. repeat (apply elem_of_cons in Hk as [->|Hk]); [..|inversion Hk]; in_list.
Qed.

(** *** The JSON path on a complete object *)

Lemma predict_complete model (d : gmap string pyval) :
  (forall k, k ∈ FEATURES -> is_Some (d !! k)) ->
  (forall k, k ∈ NUMERIC -> exists v x, d !! k = Some v /\ py_float v = Ok x) ->
  predict model (VDict d)
  = pred ← model (json_row d);
    Ok (Json [("prediction", VFloat pred); ("currency", VStr "GBP")] 200).
Proof.
  intros Hall Hnum. unfold predict.
  rewrite (missing_of_complete d Hall). cbn [mbind result_bind].
  destruct (copy_loop d FEATURES ∅ Hall) as (row & -> & Hrow).
  cbn [mbind result_bind].
  destruct (cast_loop_ok NUMERIC row) as (row' & -> & Hrow').
  { intros k Hk. destruct (Hnum k Hk) as (v & x & Hv & Hx). exists v, x.
    split; [|exact Hx].
    rewrite Hrow, bool_decide_eq_true_2 by (apply numeric_is_feature, Hk). exact Hv. }
  cbn [mbind result_bind]. unfold model_predict.
  assert (frame_row row' = json_row d) as ->; [|reflexivity].
  unfold frame_row, json_row. apply map_ext_in. intros k Hk%list_elem_of_In.
  rewrite Hrow', Hrow, (bool_decide_eq_true_2 _ Hk).
  destruct (Hall k Hk) as [v ->].
  destruct (bool_decide (k ∈ NUMERIC)); reflexivity.
Qed.

(** With all ten keys present and every numeric value accepted by
    [float], [POST /predict] calls the predictor once, on the row of the
    ten features in [FEATURES] order with the six numeric ones cast, and
    answers 200 with its prediction and the currency. *)
Theorem predict_complete_row (model : list pyval -> result pyfloat)
    (d : gmap string pyval) :
  (forall k, k ∈ FEATURES -> is_Some (d !! k)) ->
  (forall k v, k ∈ NUMERIC -> d !! k = Some v -> exists x, py_float v = Ok x) ->
  predict model (VDict d)
  = pred ← model (json_row d);
    Ok (Json [("prediction", VFloat pred); ("currency", VStr "GBP")] 200).
Proof.
  intros Hall Hnum. apply predict_complete; [exact Hall|].
  intros k Hk. destruct (Hall k (numeric_is_feature k Hk)) as [v Hv].
  destruct (Hnum k v Hk Hv) as [x Hx]. exists v, x. split; assumption.
Qed.

Lemma full_payload_complete k : k ∈ FEATURES -> is_Some (full_payload !! k).
Proof.
  intros Hk. repeat (apply elem_of_cons in Hk as [->|Hk]); [..|inversion Hk];
    eexists; vm_compute; reflexivity.
Qed.

Lemma predict_complete_row_sample :
  predict sample_model (VDict full_payload)
  = Ok (Json [("prediction", VFloat (FFinite 250000)); ("currency", VStr "GBP")] 200).
Proof.
  rewrite (predict_complete_row sample_model full_payload); [reflexivity | |].
  - exact full_payload_complete.
  - intros k v Hk.
    repeat (apply elem_of_cons in Hk as [->|Hk]); [..|inversion Hk];
      intros Hv; vm_compute in Hv; injection Hv as <-; eexists; reflexivity.
Defined.

(** When all ten keys are present and [float] rejects the value of a
    numeric one (a word, an empty string, [null], a list), the handler
    raises before it reaches the predictor: the outcome is the same
    exception for every predictor, a 500 for the client. *)
Theorem predict_rejects_bad_numeric (d : gmap string pyval) (k : string)
    (v : pyval) (e : exn) :
  (forall f, f ∈ FEATURES -> is_Some (d !! f)) ->
  k ∈ NUMERIC -> d !! k = Some v -> py_float v = Raise e ->
  exists e', forall model, predict model (VDict d) = Raise e'.
Proof.
  intros Hall Hk Hv He.
  destruct (copy_loop d FEATURES ∅ Hall) as (row & Hcopy & Hrow).
  destruct (cast_loop_raises NUMERIC row k v e Hk) as [e' He']; [|exact He|].
  { rewrite Hrow, bool_decide_eq_true_2 by (apply numeric_is_feature, Hk). exact Hv. }
  exists e'. intros model. unfold predict.
  rewrite (missing_of_complete d Hall). cbn [mbind result_bind].
  rewrite Hcopy. cbn [mbind result_bind]. rewrite He'. reflexivity.
Qed.

Lemma predict_rejects_bad_numeric_null :
  exists e', forall model, predict model (VDict null_payload) = Raise e'.
Proof.
  apply (predict_rejects_bad_numeric null_payload "bedrooms" VNone TypeError).
  - intros f Hf. repeat (apply elem_of_cons in Hf as [->|Hf]); [..|inversion Hf];
      eexists; vm_compute; reflexivity.
  - in_list.
  - vm_compute. reflexivity.
  - reflexivity.
Defined.

(** *** Keys the model does not know *)

Lemma filter_missing_ext (d1 d2 : gmap string pyval) (l : list string) :
  (forall k, k ∈ l -> d1 !! k = d2 !! k) ->
  filter (fun f => d1 !! f = None) l = filter (fun f => d2 !! f = None) l.
Proof.
  induction l as [|k l IH]; intros H; [reflexivity|].
  assert (d1 !! k = d2 !! k) as Hk by (apply H; left).
  assert (filter (fun f => d1 !! f = None) l = filter (fun f => d2 !! f = None) l) as Hl
    by (apply IH; intros k' Hk'; apply H; right; exact Hk').
  destruct (d2 !! k) as [v|] eqn:E.
  - rewrite !filter_cons_False by congruence. exact Hl.
  - rewrite !filter_cons_True by congruence. rewrite Hl. reflexivity.
Qed.

Lemma copy_key_ext (d1 d2 row : gmap string pyval) k :
  d1 !! k = d2 !! k -> copy_key (VDict d1) row k = copy_key (VDict d2) row k.
Proof. intros H. unfold copy_key, py_getitem. rewrite H. reflexivity. Qed.

Lemma copy_loop_ext (d1 d2 : gmap string pyval) (ks : list string) row :
  (forall k, k ∈ ks -> d1 !! k = d2 !! k) ->
  for_keys (copy_key (VDict d1)) ks row = for_keys (copy_key (VDict d2)) ks row.
Proof.
  revert row; induction ks as [|k ks IH]; intros row H; [reflexivity|].
  cbn [for_keys]. rewrite (copy_key_ext d1 d2 row k) by (apply H; left).
  destruct (copy_key (VDict d2) row k) as [row'|e]; [|reflexivity].
  cbn [mbind result_bind]. apply IH. intros k' Hk'. apply H. right. exact Hk'.
Qed.

(** [POST /predict] reads the ten feature keys and nothing else: two
    objects with the same entries under these keys get the same answer,
    whatever other keys they carry. *)
Theorem predict_ignores_other_keys (model : list pyval -> result pyfloat)
    (d1 d2 : gmap string pyval) :
  same_features d1 d2 ->
  predict model (VDict d1) = predict model (VDict d2).
Proof.
  intros H. unfold predict. rewrite !missing_of_dict.
  rewrite (filter_missing_ext d1 d2 FEATURES H). cbn [mbind result_bind].
  destruct (filter (fun f => d2 !! f = None) FEATURES); [|reflexivity].
  rewrite (copy_loop_ext d1 d2 FEATURES ∅ H). reflexivity.
Qed.

Lemma predict_ignores_other_keys_sample :
  predict sample_model (VDict extended_payload)
  = predict sample_model (VDict full_payload).
Proof.
  apply (predict_ignores_other_keys sample_model extended_payload full_payload).
  intros k Hk. unfold extended_payload. apply lookup_insert_ne.
  repeat (apply elem_of_cons in Hk as [->|Hk]); [..|inversion Hk]; discriminate.
Defined.

(** *** Bodies that are not objects *)

Lemma missing_of_str s l : exists m, missing_of (VStr s) l = Ok m.
Proof.
  induction l as [|f l [m Hm]]; [eexists; reflexivity|].
  cbn [missing_of py_in mbind result_bind]. rewrite Hm. eexists. reflexivity.
Qed.

Lemma missing_of_list vs l : exists m, missing_of (VList vs) l = Ok m.
Proof.
  induction l as [|f l [m Hm]]; [eexists; reflexivity|].
  cbn [missing_of py_in mbind result_bind]. rewrite Hm. eexists. reflexivity.
Qed.

(** A body that is not a JSON object never gets a prediction: the answer
    is a 400 or a 500, for every predictor. *)
Theorem predict_needs_object (model : list pyval -> result pyfloat) (payload : pyval) :
  (forall d, payload <> VDict d) ->
  status_of (predict model payload) = 400%Z
  \/ status_of (predict model payload) = 500%Z.
Proof.
  intros Hobj. destruct payload as [|b|z|x|s|vs|d];
    [right; reflexivity..| | |exfalso; exact (Hobj d eq_refl)].
  - destruct (missing_of_str s FEATURES) as [m Hm]. unfold predict. rewrite Hm.
    cbn [mbind result_bind]. destruct m; [right | left]; reflexivity.
  - destruct (missing_of_list vs FEATURES) as [m Hm]. unfold predict. rewrite Hm.
    cbn [mbind result_bind]. destruct m; [right | left]; reflexivity.
Qed.

Lemma predict_needs_object_samples :
  status_of (predict sample_model (VList [])) = 400%Z
  /\ status_of (predict sample_model (VInt 5)) = 500%Z.
Proof.
  split.
  - destruct (predict_needs_object sample_model (VList [])) as [H|H];
      [discriminate | exact H | vm_compute in H; discriminate H].
  - destruct (predict_needs_object sample_model (VInt 5)) as [H|H];
      [discriminate | vm_compute in H; discriminate H | exact H].
Defined.

(** *** The record of the form path *)

Lemma record_explicit f data :
  predict_form_record f = Ok data ->
  exists lat lon a b c d,
    data = <["livingRooms" := VFloat d]>
           (<["bathrooms" := VFloat c]>
           (<["bedrooms" := VFloat b]>
           (<["floorAreaSqM" := VFloat a]>
           (<["longitude" := VFloat lon]>
           (<["latitude" := VFloat lat]>
           (<["longitude" := VFloat lon]>
           (<["latitude" := VFloat lat]> (form_data f)))))))).
Proof.
  rewrite record_unrolled.
  destruct (coords_of_form_value f "postcodeArea") as (lat & lon & ->).
  cbn [mbind result_bind].
  destruct (float_or_zero (form_get f "floorAreaSqM")) as [a|]; [|discriminate].
  destruct (float_or_zero (form_get f "bedrooms")) as [b|]; [|discriminate].
  destruct (float_or_zero (form_get f "bathrooms")) as [c|]; [|discriminate].
  destruct (float_or_zero (form_get f "livingRooms")) as [d|]; [|discriminate].
  cbn [mbind result_bind]. intros <-%Ok_inj.
  exists lat, lon, a, b, c, d. reflexivity.
Qed.

Lemma record_numeric f data k :
  predict_form_record f = Ok data -> k ∈ NUMERIC ->
  exists x, data !! k = Some (VFloat x).
Proof.
  intros (lat & lon & a & b & c & d & ->)%record_explicit Hk.
  repeat (apply elem_of_cons in Hk as [->|Hk]); [..|inversion Hk];
    map_lookup; eexists; reflexivity.
Qed.

Lemma record_categorical f data k :
  predict_form_record f = Ok data -> k ∈ CATEGORICAL ->
  data !! k = Some (form_get f k).
Proof.
  intros (lat & lon & a & b & c & d & ->)%record_explicit Hk.
  repeat (apply elem_of_cons in Hk as [->|Hk]); [..|inversion Hk];
    map_lookup; apply form_data_lookup; first [discriminate | in_list].
Qed.

Lemma feature_cases k :
  k ∈ FEATURES <-> k ∈ NUMERIC \/ k ∈ CATEGORICAL.
Proof.
  split.
  - intros Hk. repeat (apply elem_of_cons in Hk as [->|Hk]); [..|inversion Hk];
      first [left; in_list | right; in_list].
  - intros [Hk|Hk]; repeat (apply elem_of_cons in Hk as [->|Hk]);
      first [in_list | inversion Hk].
Qed.

Lemma record_keys f data k :
  predict_form_record f = Ok data -> is_Some (data !! k) -> k ∈ FEATURES.
Proof.
  intros (lat & lon & a & b & c & d & ->)%record_explicit. rewrite form_data_eq.
  intros H.
  repeat (apply lookup_insert_is_Some in H as [<-|[_ H]]; [in_list|]).
  rewrite lookup_empty in H. destruct H as [v Hv]. discriminate Hv.
Qed.

(** Every record the form handler hands to the predictor has exactly the
    ten feature keys, a float under each numeric one, and under each
    other one the value of the form, [None] when the form lacks it: the
    form path validates nothing but the numbers. *)
Theorem form_record_shape (f : form) (data : gmap string pyval) :
  predict_form_record f = Ok data ->
  (forall k, is_Some (data !! k) <-> k ∈ FEATURES)
  /\ (forall k, k ∈ NUMERIC -> exists x, data !! k = Some (VFloat x))
  /\ (forall k, k ∈ CATEGORICAL -> data !! k = Some (form_get f k)).
Proof.
  intros H. split; [|split].
  - intros k. split; [apply (record_keys f data k H)|].
    intros [Hk|Hk]%feature_cases.
    + destruct (record_numeric f data k H Hk) as [x ->]. eauto.
    + rewrite (record_categorical f data k H Hk). eauto.
  - intros k Hk. exact (record_numeric f data k H Hk).
  - intros k Hk. exact (record_categorical f data k H Hk).
Qed.

Lemma blank_form_record :
  exists data, predict_form_record blank_form = Ok data.
Proof.
  rewrite record_unrolled.
  destruct (coords_of_form_value blank_form "postcodeArea") as (lat & lon & ->).
  cbn [mbind result_bind]. eexists. reflexivity.
Qed.

Lemma form_record_shape_blank :
  exists data,
    predict_form_record blank_form = Ok data
    /\ data !! "tenure" = Some VNone
    /\ data !! "propertyType" = Some (VStr "Flat").
Proof.
  destruct blank_form_record as [data Hd]. exists data. split; [exact Hd|].
  destruct (form_record_shape blank_form data Hd) as (_ & _ & Hcat).
  split; [apply (Hcat "tenure") | apply (Hcat "propertyType")]; in_list.
Defined.

(** The record of the form path is a fixed point of the casts of the
    JSON path: posted to [/predict] as an object it passes the check for
    missing keys and reaches the predictor with the very row the form
    handler uses, so both paths return the same prediction for it. *)
Theorem form_record_through_json (model : list pyval -> result pyfloat)
    (f : form) (data : gmap string pyval) :
  predict_form_record f = Ok data ->
  predict_form model f
  = (pred ← model (frame_row data); Ok (Html (Some pred)))
  /\ predict model (VDict data)
     = (pred ← model (frame_row data);
        Ok (Json [("prediction", VFloat pred); ("currency", VStr "GBP")] 200)).
Proof.
  intros H. split.
  - unfold predict_form. rewrite H. reflexivity.
  - assert (forall k, k ∈ FEATURES -> is_Some (data !! k)) as Hall.
    { intros k [Hk|Hk]%feature_cases.
      - destruct (record_numeric f data k H Hk) as [x ->]. eauto.
      - rewrite (record_categorical f data k H Hk). eauto. }
    rewrite predict_complete; [|exact Hall|].
    + assert (json_row data = frame_row data) as ->; [|reflexivity].
      unfold json_row, frame_row. apply map_ext_in. intros k Hk%list_elem_of_In.
      destruct (Hall k Hk) as [v Hv]. rewrite Hv. simpl.
      case_bool_decide as Hn; [|reflexivity].
      destruct (record_numeric f data k H Hn) as [x Hx].
      rewrite Hx in Hv. injection Hv as <-. reflexivity.
    + intros k Hk. destruct (record_numeric f data k H Hk) as [x Hx].
      exists (VFloat x), x. split; [exact Hx | reflexivity].
Qed.

Lemma form_record_through_json_blank :
  exists data,
    predict_form_record blank_form = Ok data
    /\ predict sample_model (VDict data)
       = Ok (Json [("prediction", VFloat (FFinite 250000)); ("currency", VStr "GBP")] 200).
Proof.
  destruct blank_form_record as [data Hd]. exists data. split; [exact Hd|].
  destruct (form_record_through_json sample_model blank_form data Hd) as [_ ->].
  reflexivity.
Defined.

End RoutesMoreFacts.
